(** * QR scanner GUI (examples/qr_scanner/qr_scanner_gui.py)

    A shallow embedding of [QRScannerApp]: the capture / decode / display
    callback [update_frame], the decoder wrapper [decode_qr], the camera
    helper [open_camera], the resume action [resume_scan], the bounded
    history [append_history] and the constructor [__init__].

    The object [self] is a record that is threaded through a small monad
    which also collects the calls made to the outside world (Tk timer,
    message boxes, camera handle, label image) and carries Python
    exceptions ([sys.exit], [cv2.error], float division by zero).  The camera and the
    QR detector are the environment: what they answer is an input of each
    operation. *)

From Stdlib Require Import ZArith String Ascii Bool Lia Arith List.
From Stdlib Require Import DecimalString.
From Stdlib Require Import Floats.SpecFloat.
From Stdlib Require Import List.
Import ListNotations.

Local Open Scope string_scope.
Local Open Scope list_scope.
Local Open Scope Z_scope.

(* ================================================================== *)
(** ** Python values used by the program *)

(** Python [float] is IEEE binary64; the polygon arrays returned by
    OpenCV are [numpy.float32].  Both are [spec_float] values, rounded
    with the precision and exponent range of their format. *)
Module PyFloat.

Definition float64 := spec_float.
Definition float32 := spec_float.

Definition prec64 : Z := 53.
Definition emax64 : Z := 1024.
Definition prec32 : Z := 24.
Definition emax32 : Z := 128.

(** The binary64 number [m * 2^e]. *)
Definition f64 (m e : Z) : float64 := binary_normalize prec64 emax64 m e false.
(** The binary32 number [m * 2^e]. *)
Definition f32 (m e : Z) : float32 := binary_normalize prec32 emax32 m e false.

Definition one : float64 := f64 1 0.

(** [x != y] on floats: a NaN differs from everything. *)
Definition ne (x y : float64) : bool := negb (SFeqb x y).

Definition is_zero (x : spec_float) : bool :=
  match x with S754_zero _ => true | _ => false end.

(** [x / y] on Python floats: a zero divisor raises [ZeroDivisionError]
    (here [None]), whatever [x] is. *)
Definition truediv (x y : float64) : option float64 :=
  if is_zero y then None else Some (SFdiv prec64 emax64 x y).

(** The Python scalar of [array * scalar] is converted to the array's
    [float32] before the product is taken. *)
Definition to_f32 (x : float64) : float32 :=
  match x with
  | S754_finite s m e => binary_round prec32 emax32 s m e
  | other => other
  end.

Definition mul32 (x y : float32) : float32 := SFmul prec32 emax32 x y.

Definition int64_min : Z := - 2 ^ 63.
Definition int64_max : Z := 2 ^ 63 - 1.

(** [.astype(int)]: conversion to [int64] truncates toward zero; what
    does not fit (NaN, infinities, huge values) becomes the smallest
    [int64], as the x86-64 conversion instruction answers. *)
Definition astype_int (x : float32) : Z :=
  match x with
  | S754_zero _ => 0
  | S754_finite s m e =>
      let a := Z.shiftl (Zpos m) e in
      let v := if s then - a else a in
      if (int64_min <=? v) && (v <=? int64_max) then v else int64_min
  | _ => int64_min
  end.

End PyFloat.

(** Python lists and strings. *)
Module Py.

(** [l[start:]] for an integer [start]: a negative [start] counts from
    the end, and either way the bound is clipped to the list. *)
Definition slice_from {A : Type} (start : Z) (l : list A) : list A :=
  let n := Z.of_nat (length l) in
  let i := if start <? 0 then Z.max 0 (n + start) else Z.min start n in
  skipn (Z.to_nat i) l.

(** [sep.join(l)] *)
Definition join (sep : string) (l : list string) : string := String.concat sep l.

(** [str(n)] for an [int]. *)
Definition str_of_int (n : Z) : string := NilZero.string_of_int (Z.to_int n).

(** Truth value of a [str]: non-empty. *)
Definition truthy (s : string) : bool :=
  match s with EmptyString => false | String _ _ => true end.

(** [a != b] where each side is [None] or a [str]. *)
Definition ne_opt (a b : option string) : bool :=
  match a, b with
  | None, None => false
  | Some x, Some y => negb (String.eqb x y)
  | _, _ => true
  end.

Definition newline : string := String (ascii_of_nat 10) EmptyString.

End Py.

(* ================================================================== *)
(** ** Images and the detector *)

Definition point : Type := Z * Z.
Definition colour : Type := Z * Z * Z.

(** A frame is known only through the OpenCV calls applied to it. *)
Inductive image : Type :=
| Captured (n : nat)                               (* delivered by [video.read()] *)
| Resize (src : image) (fx fy : PyFloat.float64)   (* [cv2.resize(src, None, fx, fy, INTER_AREA)] *)
| Line (dst : image) (p q : point) (c : colour) (thickness : Z)  (* [cv2.line] *)
| CvtColor (src : image).                          (* [cv2.cvtColor(src, COLOR_BGR2RGB)] *)

(** One polygon of the detector: its corner points, [float32] pairs. *)
Definition bbox : Type := list (PyFloat.float32 * PyFloat.float32).

(** What [detectAndDecodeMulti] returns (the straight codes are ignored). *)
Record detection : Type := mkDetection {
  retval : bool;
  decoded_info : list string;
  pts : option (list bbox)
}.

(** A scale [cv2.resize] accepts: OpenCV asserts that the scale is
    positive, which rules out zero, a negative number and NaN, and it
    cannot build an image of infinite size. *)
Definition resizable (scale : PyFloat.float64) : bool :=
  match scale with
  | S754_finite false _ _ => true
  | _ => false
  end.

(** [cv2.resize(src, None, fx=scale, fy=scale, interpolation=cv2.INTER_AREA)]:
    with a scale it does not accept the call raises [cv2.error], here
    [None].  With a positive finite scale it is taken to return: the frame
    is taken to be large enough for the result to have a pixel. *)
Definition cv2_resize (src : image) (scale : PyFloat.float64) : option image :=
  if resizable scale then Some (Resize src scale scale) else None.

(** The segments drawn on an image, oldest first. *)
Fixpoint strokes (img : image) : list (point * point) :=
  match img with
  | Captured _ => []
  | Resize _ _ _ => []
  | Line dst p q _ _ => strokes dst ++ [(p, q)]
  | CvtColor src => strokes src
  end.

(* ================================================================== *)
(** ** The application object and its effects *)

Record VideoCapture : Type := mkVideo { isOpened : bool }.

Record App : Type := mkApp {
  running : bool;
  camera_index : Z;
  display_scale : PyFloat.float64;
  decode_scale : PyFloat.float64;
  video : VideoCapture;
  detector : image -> detection;
  status_var : string;
  history_size : Z;
  decoded_history : list string;
  decoded_box : string;
  last_result : option string
}.

(** Calls that leave the object. *)
Inductive event : Type :=
| NewVideoCapture (index : Z) (dshow : bool)  (* [cv2.VideoCapture(index[, CAP_DSHOW])] *)
| Release                                     (* [self.video.release()] *)
| After (ms : Z)                              (* [self.master.after(ms, self.update_frame)] *)
| ShowInfo (title message : string)           (* [messagebox.showinfo] *)
| ShowError (title message : string)          (* [messagebox.showerror] *)
| ConfigureImage (img : image)                (* [self.frame_label.configure(image=...)] *)
| Destroy.                                    (* [self.master.destroy()] *)

Inductive exn : Type :=
| SystemExit (code : Z)
| ZeroDivisionError
| Cv2Error.                                   (* [cv2.error] *)

Definition event_eqb_after (e : event) : bool :=
  match e with After _ => true | _ => false end.

(** The number of timer callbacks a trace registers. *)
Definition scheduled (tr : list event) : nat :=
  length (filter event_eqb_after tr).

Definition rendered (tr : list event) : list image :=
  flat_map (fun e => match e with ConfigureImage i => [i] | _ => [] end) tr.

(** A computation on [self]: it ends normally or by an exception, leaves
    [self] as mutated so far, and logs its outside calls in order. *)
Module Eff.

Record res (A : Type) : Type := mkRes {
  outcome : exn + A;
  final : App;
  trace : list event
}.
Arguments mkRes {A} _ _ _.
Arguments outcome {A} _.
Arguments final {A} _.
Arguments trace {A} _.

Definition M (A : Type) : Type := App -> res A.

Definition ret {A : Type} (a : A) : M A := fun s => mkRes (inr a) s [].

Definition bind {A B : Type} (c : M A) (k : A -> M B) : M B :=
  fun s =>
    match c s with
    | mkRes (inl e) s1 t1 => mkRes (inl e) s1 t1
    | mkRes (inr a) s1 t1 =>
        match k a s1 with
        | mkRes o s2 t2 => mkRes o s2 (t1 ++ t2)
        end
    end.

Definition raise {A : Type} (e : exn) : M A := fun s => mkRes (inl e) s [].
Definition get : M App := fun s => mkRes (inr s) s [].
Definition modify (f : App -> App) : M unit := fun s => mkRes (inr tt) (f s) [].
Definition emit (e : event) : M unit := fun s => mkRes (inr tt) s [e].

(** The value of a call that may raise [e]. *)
Definition attempt {A : Type} (e : exn) (x : option A) : M A :=
  match x with
  | Some a => ret a
  | None => raise e
  end.

End Eff.
Import Eff.

Declare Scope eff_scope.
Delimit Scope eff_scope with eff.
Notation "x <- c ;; k" := (bind c (fun x => k))
  (at level 61, c at next level, right associativity) : eff_scope.
Notation "c ;; k" := (bind c (fun _ => k))
  (at level 61, right associativity) : eff_scope.
Local Open Scope eff_scope.

(** Attribute assignments [self.x = v]. *)
Definition set_running (b : bool) (s : App) : App :=
  mkApp b (camera_index s) (display_scale s) (decode_scale s) (video s) (detector s)
        (status_var s) (history_size s) (decoded_history s) (decoded_box s) (last_result s).
Definition set_video (v : VideoCapture) (s : App) : App :=
  mkApp (running s) (camera_index s) (display_scale s) (decode_scale s) v (detector s)
        (status_var s) (history_size s) (decoded_history s) (decoded_box s) (last_result s).
Definition set_status (t : string) (s : App) : App :=
  mkApp (running s) (camera_index s) (display_scale s) (decode_scale s) (video s) (detector s)
        t (history_size s) (decoded_history s) (decoded_box s) (last_result s).
Definition set_decoded_history (h : list string) (s : App) : App :=
  mkApp (running s) (camera_index s) (display_scale s) (decode_scale s) (video s) (detector s)
        (status_var s) (history_size s) h (decoded_box s) (last_result s).
Definition set_decoded_box (t : string) (s : App) : App :=
  mkApp (running s) (camera_index s) (display_scale s) (decode_scale s) (video s) (detector s)
        (status_var s) (history_size s) (decoded_history s) t (last_result s).
Definition set_last_result (r : option string) (s : App) : App :=
  mkApp (running s) (camera_index s) (display_scale s) (decode_scale s) (video s) (detector s)
        (status_var s) (history_size s) (decoded_history s) (decoded_box s) r.

(* ================================================================== *)
(** ** The environment *)

(** What the two [cv2.VideoCapture] constructors of [open_camera] answer:
    the one with [CAP_DSHOW] raises ([None]) or gives a handle that is
    open or not; the one without the flag gives a handle. *)
Record open_answer : Type := mkOpen {
  with_dshow : option bool;
  without_flag : bool
}.

(** What the device delivers to one [video.read()]: a frame, or nothing. *)
Definition camera_answer : Type := option image.

(* ================================================================== *)
(** ** The methods of [QRScannerApp] *)

(** [ok, frame = self.video.read()]: a released handle delivers nothing. *)
Definition video_read (cam : camera_answer) : M (option image) :=
  self <- get ;;
  ret (if isOpened (video self) then cam else None).

(** [if self.video.isOpened(): self.video.release()] *)
Definition release_if_opened : M unit :=
  self <- get ;;
  if isOpened (video self)
  then emit Release ;; modify (set_video (mkVideo false))
  else ret tt.

(** [decode_qr], lines 118-125: the texts and points kept from one
    answer of the detector. *)
Definition decode (d : detection) : list string * option (list bbox) :=
  if retval d
  then (filter Py.truthy (decoded_info d), pts d)
  else ([], None).

Definition decode_qr (frame : image) : M (list string * option (list bbox)) :=
  self <- get ;;
  ret (decode (detector self frame)).

(** Lines 151-152: the history cut back to [history_size] entries. *)
Definition evict (history_size : Z) (h : list string) : list string :=
  if Z.of_nat (length h) >? history_size
  then Py.slice_from (- history_size) h
  else h.

(** [append_history], lines 148-156. *)
Definition append_history (text : string) : M unit :=
  if Py.truthy text then
    modify (fun s => set_decoded_history (decoded_history s ++ [text]) s) ;;
    modify (fun s => set_decoded_history (evict (history_size s) (decoded_history s)) s) ;;
    modify (fun s => set_decoded_box (Py.join Py.newline (decoded_history s)) s)
  else ret tt.

(** [open_camera], lines 127-136. *)
Definition open_camera (o : open_answer) : M bool :=
  self <- get ;;
  emit (NewVideoCapture (camera_index self) true) ;;
  match with_dshow o with
  | Some b => modify (set_video (mkVideo b))
  | None =>
      emit (NewVideoCapture (camera_index self) false) ;;
      modify (set_video (mkVideo (without_flag o)))
  end ;;
  self <- get ;;
  if negb (isOpened (video self)) then
    emit (ShowError "Camera Error"
            ("Cannot open camera index " ++ Py.str_of_int (camera_index self))) ;;
    ret false
  else ret true.

(** [pts = (bbox * scale_factor).astype(int).reshape(-1, 2)] *)
Definition rescale (scale_factor : PyFloat.float64) (b : bbox) : list point :=
  map (fun p => (PyFloat.astype_int (PyFloat.mul32 (fst p) (PyFloat.to_f32 scale_factor)),
                 PyFloat.astype_int (PyFloat.mul32 (snd p) (PyFloat.to_f32 scale_factor))))
      b.

Definition green : colour := (0, 255, 0).

(** The loop [for i in range(len(pts)): cv2.line(...)], lines 101-108. *)
Definition draw_outline (display_frame : image) (pts : list point) : image :=
  let n := length pts in
  fold_left
    (fun img i => Line img (nth i pts (0, 0)) (nth ((i + 1) mod n)%nat pts (0, 0)) green 2)
    (seq 0 n) display_frame.

(** The body of [for bbox in points], lines 100-108. *)
Definition draw_bbox (scale_factor : PyFloat.float64) (display_frame : image) (b : bbox)
  : image :=
  draw_outline display_frame (rescale scale_factor b).

(** Lines 66-74: the frame handed to the detector; [None] when the
    resize raises. *)
Definition detect_frame (self : App) (frame : image) : option image :=
  if PyFloat.ne (decode_scale self) PyFloat.one
  then cv2_resize frame (decode_scale self)
  else Some frame.

(** Lines 91-95: the frame that is drawn on and shown; [None] when the
    resize raises. *)
Definition display_frame (self : App) (frame : image) : option image :=
  if PyFloat.ne (display_scale self) PyFloat.one
  then cv2_resize frame (display_scale self)
  else Some frame.

(** The tail of [update_frame], lines 91-116: what runs when the tick
    has not returned at line 64 or 87. *)
Definition show_frame (frame : image) (points : option (list bbox)) : M unit :=
  self <- get ;;
  display_frame <- attempt Cv2Error (display_frame self frame) ;;
  display_frame <-
    match points with
    | Some polys =>
        match PyFloat.truediv (display_scale self) (decode_scale self) with
        | Some scale_factor => ret (fold_left (draw_bbox scale_factor) polys display_frame)
        | None => raise ZeroDivisionError
        end
    | None => ret display_frame
    end ;;
  emit (ConfigureImage (CvtColor display_frame)) ;;
  self <- get ;;
  if running self then emit (After 10) else ret tt.

(** [update_frame], lines 56-116. *)
Definition update_frame (cam : camera_answer) : M unit :=
  self <- get ;;
  if negb (running self) then ret tt else
  read <- video_read cam ;;
  match read with
  | None =>
      modify (set_status "Camera read failed") ;;
      emit (After 200)
  | Some frame =>
      detect_frame <- attempt Cv2Error (detect_frame self frame) ;;
      r <- decode_qr detect_frame ;;
      let decoded_texts := fst r in
      let points := snd r in
      match decoded_texts with
      | _ :: _ =>
          let newest := last decoded_texts "" in
          self <- get ;;
          if Py.ne_opt (Some newest) (last_result self) then
            modify (set_last_result (Some newest)) ;;
            append_history newest ;;
            modify (set_status "QR detected - camera stopped") ;;
            modify (set_running false) ;;
            release_if_opened ;;
            emit (ShowInfo "QR detected" newest)
          else show_frame frame points
      | [] =>
          modify (set_status "Waiting for QR code...") ;;
          show_frame frame points
      end
  end.

(** [resume_scan], lines 138-146. *)
Definition resume_scan (o : open_answer) (cam : camera_answer) : M unit :=
  self <- get ;;
  if running self then ret tt else
  ok <- open_camera o ;;
  if negb ok then ret tt else
  modify (set_last_result None) ;;
  modify (set_running true) ;;
  modify (set_status "Waiting for QR code...") ;;
  update_frame cam.

(** [on_close], lines 158-161. *)
Definition on_close : M unit :=
  release_if_opened ;;
  emit Destroy.

(** The attributes [__init__] assigns, with the handle [open_camera] is
    about to replace still closed. *)
Definition fresh (det : image -> detection) (camera_index history_size : Z)
    (display_scale decode_scale : PyFloat.float64) : App :=
  mkApp true camera_index display_scale decode_scale (mkVideo false) det
        "Waiting for QR code..." history_size [] "" None.

(** [__init__], lines 11-54: [sys.exit(1)] raises [SystemExit]. *)
Definition init (o : open_answer) (cam : camera_answer) : M unit :=
  ok <- open_camera o ;;
  if negb ok then raise (SystemExit 1) else
  update_frame cam.

(** [QRScannerApp(root, camera_index, history_size, display_scale, decode_scale)] *)
Definition QRScannerApp (det : image -> detection) (camera_index history_size : Z)
    (display_scale decode_scale : PyFloat.float64)
    (o : open_answer) (cam : camera_answer) : res unit :=
  init o cam (fresh det camera_index history_size display_scale decode_scale).

(** The call in [main]: defaults but [decode_scale=4.0]. *)
Definition main_app (det : image -> detection) (camera : Z)
    (o : open_answer) (cam : camera_answer) : res unit :=
  QRScannerApp det camera 20 (PyFloat.f64 1 (-1)) (PyFloat.f64 4 0) o cam.

(* ================================================================== *)
(** ** The Tk main loop

    [root.mainloop()] runs the callbacks the program registered: a timer
    set by [master.after], the button bound to [resume_scan], the window
    close bound to [on_close].  A callback that raises is reported by Tk
    and the loop goes on with [self] as the callback left it. *)

Record session : Type := mkSession {
  app : App;
  timers : nat;          (* callbacks registered by [after], not yet run *)
  alive : bool;          (* the window has not been destroyed *)
  log : list event
}.

Inductive action : Type :=
| Timer (cam : camera_answer)                      (* a registered timer fires *)
| ResumeButton (o : open_answer) (cam : camera_answer)
| WindowClose.

Definition absorb (pending : nat) (r : res unit) (w : session) : session :=
  mkSession (final r) (pending + scheduled (trace r)) (alive w) (log w ++ trace r).

Definition step (w : session) (a : action) : session :=
  if negb (alive w) then w else
  match a with
  | Timer cam =>
      match timers w with
      | O => w
      | S pending => absorb pending (update_frame cam (app w)) w
      end
  | ResumeButton o cam => absorb (timers w) (resume_scan o cam (app w)) w
  | WindowClose =>
      let r := on_close (app w) in
      mkSession (final r) 0 false (log w ++ trace r)
  end.

Definition run (w : session) (l : list action) : session := fold_left step l w.

(** The session [main] enters once the constructor has returned. *)
Definition boot (r : res unit) : option session :=
  match outcome r with
  | inl _ => None
  | inr _ => Some (mkSession (final r) (scheduled (trace r)) true (trace r))
  end.

(** While scanning, nothing is remembered as already reported. *)
Definition memo_clear (s : App) : Prop :=
  running s = true -> last_result s = None.

(** A closed outline over [pts]: every point joined to the next one, the
    last one to the first. *)
Definition closed_outline (pts : list point) : list (point * point) :=
  combine pts (tl pts ++ firstn 1 pts).

(* ================================================================== *)
(** ** Vocabulary of the statements *)

(** What a new detection leaves in [self]. *)
Definition detected (newest : string) (s : App) : App :=
  mkApp false (camera_index s) (display_scale s) (decode_scale s) (mkVideo false)
        (detector s) "QR detected - camera stopped" (history_size s)
        (evict (history_size s) (decoded_history s ++ [newest]))
        (Py.join Py.newline (evict (history_size s) (decoded_history s ++ [newest])))
        (Some newest).

(** What a granted resume leaves in [self] before its first tick. *)
Definition resumed (s : App) : App :=
  set_status "Waiting for QR code..."
    (set_running true (set_last_result None (set_video (mkVideo true) s))).

Definition opens (o : open_answer) : bool :=
  match with_dshow o with
  | Some b => b
  | None => without_flag o
  end.

Definition open_calls (index : Z) (o : open_answer) : list event :=
  match with_dshow o with
  | Some _ => [NewVideoCapture index true]
  | None => [NewVideoCapture index true; NewVideoCapture index false]
  end.

Definition camera_error (index : Z) : event :=
  ShowError "Camera Error" ("Cannot open camera index " ++ Py.str_of_int index).

(** The image [show_frame] hands to the label: the display frame with
    the rescaled outlines, unless the scale factor cannot be computed. *)
Definition overlay (s : App) (display : image) (points : option (list bbox))
  : option image :=
  match points with
  | Some polys =>
      match PyFloat.truediv (display_scale s) (decode_scale s) with
      | Some scale_factor => Some (fold_left (draw_bbox scale_factor) polys display)
      | None => None
      end
  | None => Some display
  end.

(** A scale with which the frame is made without an exception: 1.0, for
    which the program does not resize, or a scale [cv2.resize] accepts. *)
Definition accepted (scale : PyFloat.float64) : bool :=
  negb (PyFloat.ne scale PyFloat.one) || resizable scale.

(** The six ways a tick can go. *)
Inductive tick_kind : Type :=
| Idle                                   (* returned at line 58 *)
| ReadFailed                             (* returned at line 64 *)
| ResizeFailed                           (* raised at line 68 *)
| Detected (newest : string)             (* returned at line 87 *)
| Repeated (frame : image) (points : option (list bbox))   (* fell through line 79 *)
| Waiting (frame : image) (points : option (list bbox)).   (* took the [else] of line 88 *)

Definition classify (cam : camera_answer) (s : App) : tick_kind :=
  if negb (running s) then Idle else
  match (if isOpened (video s) then cam else None) with
  | None => ReadFailed
  | Some frame =>
      match detect_frame s frame with
      | None => ResizeFailed
      | Some detect =>
          let texts := fst (decode (detector s detect)) in
          let points := snd (decode (detector s detect)) in
          match texts with
          | [] => Waiting frame points
          | _ :: _ =>
              if Py.ne_opt (Some (last texts "")) (last_result s)
              then Detected (last texts "")
              else Repeated frame points
          end
      end
  end.

(** A tick that reads [frame], hands [detect] to the detector and is not
    a new detection. *)
Definition shows (frame detect : image) (s : App) : Prop :=
  running s = true
  /\ isOpened (video s) = true
  /\ detect_frame s frame = Some detect
  /\ (fst (decode (detector s detect)) = []
      \/ last_result s = Some (last (fst (decode (detector s detect))) "")).

(** [append] called for each text of a list in turn. *)
Definition appends (texts : list string) (s : App) : App :=
  fold_left (fun s t => final (append_history t s)) texts s.

Definition letters : list string :=
  map (fun c => String c EmptyString)
      (list_ascii_of_string "abcdefghijklmnopqrstuvwxy").

(* ================================================================== *)
(** ** A sample run: the configuration of [main] in front of test cards *)

Definition half : PyFloat.float64 := PyFloat.f64 1 (-1).
Definition four : PyFloat.float64 := PyFloat.f64 4 0.
Definition eighth : PyFloat.float64 := PyFloat.f64 1 (-3).

(** A square found at (100,200)-(300,400) of the decode frame. *)
Definition square : bbox :=
  [ (PyFloat.f32 100 0, PyFloat.f32 200 0); (PyFloat.f32 300 0, PyFloat.f32 200 0);
    (PyFloat.f32 300 0, PyFloat.f32 400 0); (PyFloat.f32 100 0, PyFloat.f32 400 0) ].

(** The number of the captured frame an image was made from. *)
Fixpoint source (img : image) : nat :=
  match img with
  | Captured n => n
  | Resize src _ _ => source src
  | Line dst _ _ _ _ => source dst
  | CvtColor src => source src
  end.

(** Frame 0 shows nothing, frame 1 the code "A", frame 2 a code that is
    located but not decoded, any other frame the code "B". *)
Definition sample_detector (img : image) : detection :=
  match source img with
  | 0%nat => mkDetection false [] None
  | 1%nat => mkDetection true ["A"] (Some [square])
  | 2%nat => mkDetection true [""] (Some [square])
  | _ => mkDetection true [""; "B"] (Some [square; square])
  end.

Definition camera_ok : open_answer := mkOpen (Some true) true.
Definition camera_missing : open_answer := mkOpen None false.

(** [main] started in front of an empty scene. *)
Definition scanning0 : App :=
  final (main_app sample_detector 0 camera_ok (Some (Captured 0))).

(** ... and then shown the code "A". *)
Definition paused0 : App := final (update_frame (Some (Captured 1)) scanning0).

Definition session0 : session := mkSession scanning0 1 true [].

(** A session built with [display_scale=0.0], as its constructor has
    it when it calls [update_frame]. *)
Definition frozen0 : App :=
  set_video (mkVideo true) (fresh sample_detector 0 20 (S754_zero false) four).

(** A session built with [history_size=0]. *)
Definition unbounded0 : App :=
  final (QRScannerApp sample_detector 0 0 half four camera_ok (Some (Captured 0))).

(* ================================================================== *)
(** ** Vocabulary of the further properties *)

(** How often a trace releases the camera. *)
Definition releases (tr : list event) : nat :=
  length (filter (fun e => match e with Release => true | _ => false end) tr).

(** How often a trace constructs a capture handle. *)
Definition captures (tr : list event) : nat :=
  length (filter (fun e => match e with NewVideoCapture _ _ => true | _ => false end) tr).

(** What the callbacks keep true of [self]: a paused session holds no
    camera and remembers nothing while it scans; the history has no empty
    entry and is what the text box shows; under a positive maximum it is
    within the maximum. *)
Definition tidy (s : App) : Prop :=
  (running s = false -> isOpened (video s) = false)
  /\ memo_clear s
  /\ Forall (fun t => t <> "") (decoded_history s)
  /\ decoded_box s = Py.join Py.newline (decoded_history s)
  /\ (0 < history_size s -> Z.of_nat (length (decoded_history s)) <= history_size s).

(** What the main loop keeps true of a session. *)
Definition orderly (w : session) : Prop :=
  tidy (app w)
  /\ (timers w <= 1)%nat
  /\ (running (app w) = false -> timers w = 0%nat)
  /\ (alive w = false -> timers w = 0%nat /\ isOpened (video (app w)) = false).

(** The settings a session is built with. *)
Definition same_settings (s s' : App) : Prop :=
  camera_index s' = camera_index s
  /\ display_scale s' = display_scale s
  /\ decode_scale s' = decode_scale s
  /\ history_size s' = history_size s
  /\ detector s' = detector s.



(** The texts a tick decodes in [frame]; none when the resize for the
    detector raises. *)
Definition texts_in (s : App) (frame : image) : list string :=
  match detect_frame s frame with
  | Some detect => fst (decode (detector s detect))
  | None => []
  end.

(** The text a tick on [frame] would report. *)
Definition newest_in (s : App) (frame : image) : string :=
  last (texts_in s frame) "".

(** The resume button pressed with [frame] in front of the camera. *)
Definition rescan (o : open_answer) (s : App) (frame : image) : App :=
  final (resume_scan o (Some frame) s).

(** The session [main] enters in front of an empty scene, and a few
    things that may happen to it: the code "A" is shown, the user resumes
    in front of the code "B", then closes the window. *)
Definition booted0 : session :=
  mkSession scanning0 1 true
            (trace (main_app sample_detector 0 camera_ok (Some (Captured 0)))).

Definition afternoon : list action :=
  [Timer (Some (Captured 0)); Timer None; Timer (Some (Captured 1));
   ResumeButton camera_ok (Some (Captured 3)); WindowClose].

(** While the window is there, the camera is held exactly when the
    session scans. *)
Definition holding (w : session) : Prop :=
  alive w = true -> isOpened (video (app w)) = running (app w).

(** A frame with several codes: "X", one not decoded, "Y", one not
    decoded; and a scanning session whose detector sees it. *)
Definition crowded : detection :=
  mkDetection true ["X"; ""; "Y"; ""] (Some [square; square; square; square]).

Definition crowded0 : App :=
  set_video (mkVideo true) (fresh (fun _ => crowded) 0 20 half four).

(** A session built with a negative [history_size]. *)
Definition negative0 : App :=
  set_video (mkVideo true) (fresh sample_detector 0 (-3) half four).


(** The status line tells the state of the session. *)
Definition told (s : App) : Prop :=
  if running s
  then status_var s = "Waiting for QR code..." \/ status_var s = "Camera read failed"
  else status_var s = "QR detected - camera stopped".

(* ================================================================== *)
(** * Properties *)

Ltac split_all := repeat match goal with |- _ /\ _ => split end.

(** ** Python slices and the eviction *)

Lemma slice_from_neg_zero {A : Type} (l : list A) : Py.slice_from (- 0) l = l.
Proof.
  unfold Py.slice_from. cbn [Z.opp Z.ltb Z.compare].
  replace (Z.to_nat (Z.min 0 (Z.of_nat (length l)))) with 0%nat by lia.
  reflexivity.
Qed.

Lemma slice_from_last {A : Type} (n : Z) (l : list A) :
  0 < n <= Z.of_nat (length l) ->
  Py.slice_from (- n) l = skipn (length l - Z.to_nat n) l.
Proof.
  intros Hn. unfold Py.slice_from.
  destruct (Z.ltb_spec (- n) 0) as [_ | Hge]; [| lia].
  f_equal. lia.
Qed.

Lemma evict_skipn (n : Z) (h : list string) :
  0 < n -> evict n h = skipn (length h - Z.to_nat n) h.
Proof.
  intros Hn. unfold evict.
  destruct (Z.gtb_spec (Z.of_nat (length h)) n) as [Hgt | Hle].
  - apply slice_from_last. lia.
  - replace (length h - Z.to_nat n)%nat with 0%nat by lia. reflexivity.
Qed.

Lemma evict_length (n : Z) (h : list string) :
  0 < n -> Z.of_nat (length (evict n h)) <= n.
Proof.
  intros Hn. rewrite (evict_skipn n h Hn), length_skipn. lia.
Qed.


Lemma evict_zero (h : list string) : evict 0 h = h.
Proof.
  unfold evict. destruct (_ >? _); [apply slice_from_neg_zero | reflexivity].
Qed.

(** The eviction keeps a suffix: the entries that survive are the newest
    ones, in the order they were inserted. *)
Lemma evict_suffix (n : Z) (h : list string) :
  exists k : nat, (k <= length h)%nat /\ evict n h = skipn k h.
Proof.
  unfold evict, Py.slice_from.
  destruct (_ >? _).
  - exists (Z.to_nat (if - n <? 0
                      then Z.max 0 (Z.of_nat (length h) + - n)
                      else Z.min (- n) (Z.of_nat (length h)))).
    split; [| reflexivity]. destruct (Z.ltb_spec (- n) 0); lia.
  - exists 0%nat. split; [lia | reflexivity].
Qed.

Lemma evict_app_new (n : Z) (h : list string) (t : string) :
  0 <= n ->
  exists k : nat, evict n (h ++ [t]) = skipn k h ++ [t] /\
                  (Z.of_nat (length h) < n -> k = 0%nat).
Proof.
  intros Hn. destruct (Z.eq_dec n 0) as [-> | Hnz].
  - rewrite evict_zero. exists 0%nat. split; [reflexivity | lia].
  - rewrite evict_skipn by lia. rewrite length_app. cbn [length].
    exists (length h + 1 - Z.to_nat n)%nat. split.
    + rewrite skipn_app.
      replace (length h + 1 - Z.to_nat n - length h)%nat with 0%nat by lia.
      reflexivity.
    + lia.
Qed.

(** ** Outlines *)

Lemma strokes_fold_lines (pts : list point) (m : nat) (l : list nat) (img : image) :
  strokes (fold_left
             (fun im i => Line im (nth i pts (0, 0)) (nth ((i + 1) mod m)%nat pts (0, 0)) green 2)
             l img)
  = strokes img ++ map (fun i => (nth i pts (0, 0), nth ((i + 1) mod m)%nat pts (0, 0))) l.
Proof.
  revert img. induction l as [| i l IH]; intros img; cbn [fold_left map].
  - now rewrite app_nil_r.
  - rewrite IH. cbn [strokes]. now rewrite <- app_assoc.
Qed.

Lemma rotate_length (pts : list point) :
  length (tl pts ++ firstn 1 pts) = length pts.
Proof. destruct pts as [| p ps]; cbn; [reflexivity |]. rewrite length_app. cbn. lia. Qed.

Lemma rotate_nth (pts : list point) (i : nat) :
  (i < length pts)%nat ->
  nth i (tl pts ++ firstn 1 pts) (0, 0) = nth ((i + 1) mod length pts)%nat pts (0, 0).
Proof.
  destruct pts as [| p ps]; cbn [length tl firstn]; intros Hi; [lia |].
  destruct (Nat.eq_dec (i + 1) (S (length ps))) as [Hlast | Hin].
  - rewrite Hlast, Nat.Div0.mod_same. cbn [nth].
    rewrite app_nth2 by lia. replace (i - length ps)%nat with 0%nat by lia. reflexivity.
  - rewrite Nat.mod_small by lia. rewrite app_nth1 by lia.
    replace (i + 1)%nat with (S i) by lia. reflexivity.
Qed.

(** The drawing loop draws exactly the closed outline, in order. *)
Lemma draw_outline_strokes (img : image) (pts : list point) :
  strokes (draw_outline img pts) = strokes img ++ closed_outline pts.
Proof.
  unfold draw_outline. rewrite strokes_fold_lines. f_equal.
  unfold closed_outline.
  apply (nth_ext _ _ ((0, 0), (0, 0)) ((0, 0), (0, 0))).
  - rewrite length_map, length_seq, length_combine, rotate_length. lia.
  - intros i Hi. rewrite length_map, length_seq in Hi.
    rewrite combine_nth by (now rewrite rotate_length).
    rewrite rotate_nth by exact Hi.
    rewrite (nth_indep _ _ ((nth 0 pts (0, 0), nth ((0 + 1) mod length pts)%nat pts (0, 0))))
      by (now rewrite length_map, length_seq).
    rewrite (map_nth (fun i => (nth i pts (0, 0), nth ((i + 1) mod length pts)%nat pts (0, 0)))).
    rewrite seq_nth by exact Hi. reflexivity.
Qed.

(** ** The decoder *)

Lemma decode_texts_truthy (d : detection) :
  Forall (fun t => Py.truthy t = true) (fst (decode d)).
Proof.
  unfold decode. destruct (retval d); cbn [fst]; [| constructor].
  apply Forall_forall. intros t Ht. now apply filter_In in Ht.
Qed.

Lemma last_In {A : Type} (l : list A) (d : A) : l <> [] -> In (last l d) l.
Proof.
  induction l as [| a l IH]; [congruence |]. intros _.
  destruct l as [| b l]; [now left |]. right. apply IH. discriminate.
Qed.

Lemma newest_truthy (d : detection) :
  fst (decode d) <> [] -> Py.truthy (last (fst (decode d)) "") = true.
Proof.
  intros Hne. pose proof (decode_texts_truthy d) as Hall.
  rewrite Forall_forall in Hall. apply Hall. now apply last_In.
Qed.

Lemma ne_opt_None (t : string) : Py.ne_opt (Some t) None = true.
Proof. reflexivity. Qed.

Lemma ne_opt_same (t : string) : Py.ne_opt (Some t) (Some t) = false.
Proof. cbn. now rewrite String.eqb_refl. Qed.

Lemma ne_opt_true (t : string) (m : option string) :
  Py.ne_opt (Some t) m = true <-> m <> Some t.
Proof.
  destruct m as [u |]; cbn; [| split; [discriminate | reflexivity]].
  destruct (String.eqb_spec t u) as [-> | Hne]; cbn; split; try congruence.
Qed.

(** ** One tick, branch by branch *)

#[local] Arguments Py.ne_opt : simpl never.
#[local] Arguments Py.truthy : simpl never.
#[local] Arguments Py.join : simpl never.
#[local] Arguments evict : simpl never.
#[local] Arguments decode : simpl never.
#[local] Arguments detect_frame : simpl never.
#[local] Arguments display_frame : simpl never.
#[local] Arguments last : simpl never.
#[local] Arguments show_frame : simpl never.

Lemma update_frame_paused (cam : camera_answer) (s : App) :
  running s = false -> update_frame cam s = mkRes (inr tt) s [].
Proof.
  intros Hrun. unfold update_frame, bind, get. cbn. now rewrite Hrun.
Qed.

Lemma update_frame_read_failed (cam : camera_answer) (s : App) :
  running s = true ->
  isOpened (video s) = false \/ cam = None ->
  update_frame cam s = mkRes (inr tt) (set_status "Camera read failed" s) [After 200].
Proof.
  intros Hrun Hfail. unfold update_frame, video_read, bind, get, ret. cbn.
  rewrite Hrun. cbn.
  destruct Hfail as [Hclosed | ->]; [rewrite Hclosed | destruct (isOpened (video s))];
    reflexivity.
Qed.

Lemma update_frame_resize_failed (frame : image) (s : App) :
  running s = true ->
  isOpened (video s) = true ->
  detect_frame s frame = None ->
  update_frame (Some frame) s = mkRes (inl Cv2Error) s [].
Proof.
  intros Hrun Hopen Hdetect.
  unfold update_frame, video_read, attempt, bind, get, ret, raise. cbn.
  rewrite Hrun. cbn. rewrite Hopen. cbn. rewrite Hdetect. reflexivity.
Qed.

Lemma update_frame_detected (frame detect : image) (s : App) :
  running s = true ->
  isOpened (video s) = true ->
  detect_frame s frame = Some detect ->
  let texts := fst (decode (detector s detect)) in
  texts <> [] ->
  Py.ne_opt (Some (last texts "")) (last_result s) = true ->
  update_frame (Some frame) s
  = mkRes (inr tt) (detected (last texts "") s)
          [Release; ShowInfo "QR detected" (last texts "")].
Proof.
  intros Hrun Hopen Hdetect texts Hne Hnew.
  pose proof (newest_truthy _ Hne) as Htruthy.
  subst texts.
  unfold update_frame, video_read, decode_qr, attempt, bind, get, ret. cbn.
  rewrite Hrun. cbn. rewrite Hopen. cbn. rewrite Hdetect. cbn.
  destruct (fst (decode (detector s detect))) as [| t ts];
    [congruence |].
  rewrite Hnew.
  unfold append_history. rewrite Htruthy.
  unfold release_if_opened, bind, get, modify, emit. cbn. rewrite Hopen.
  reflexivity.
Qed.

Lemma update_frame_waiting (frame detect : image) (s : App) :
  running s = true ->
  isOpened (video s) = true ->
  detect_frame s frame = Some detect ->
  fst (decode (detector s detect)) = [] ->
  update_frame (Some frame) s
  = show_frame frame (snd (decode (detector s detect)))
      (set_status "Waiting for QR code..." s).
Proof.
  intros Hrun Hopen Hdetect Hnone.
  unfold update_frame, video_read, decode_qr, attempt, bind, get, ret, modify. cbn.
  rewrite Hrun. cbn. rewrite Hopen. cbn. rewrite Hdetect. cbn. rewrite Hnone.
  destruct (show_frame _ _ _) as [o s' t]. reflexivity.
Qed.

Lemma update_frame_repeated (frame detect : image) (s : App) :
  running s = true ->
  isOpened (video s) = true ->
  detect_frame s frame = Some detect ->
  let texts := fst (decode (detector s detect)) in
  texts <> [] ->
  Py.ne_opt (Some (last texts "")) (last_result s) = false ->
  update_frame (Some frame) s
  = show_frame frame (snd (decode (detector s detect))) s.
Proof.
  intros Hrun Hopen Hdetect texts Hne Hsame. subst texts.
  unfold update_frame, video_read, decode_qr, attempt, bind, get, ret, modify. cbn.
  rewrite Hrun. cbn. rewrite Hopen. cbn. rewrite Hdetect. cbn.
  destruct (fst (decode (detector s detect))) as [| t ts];
    [congruence |].
  rewrite Hsame.
  destruct (show_frame _ _ _) as [o s' t']. reflexivity.
Qed.

Lemma show_frame_run (frame : image) (points : option (list bbox)) (s : App) :
  show_frame frame points s
  = match display_frame s frame with
    | None => mkRes (inl Cv2Error) s []
    | Some display =>
        match overlay s display points with
        | Some img =>
            mkRes (inr tt) s
                  (ConfigureImage (CvtColor img) :: if running s then [After 10] else [])
        | None => mkRes (inl ZeroDivisionError) s []
        end
    end.
Proof.
  unfold show_frame, overlay, attempt, bind, get, ret, raise, emit. cbn.
  destruct (display_frame s frame) as [display |]; [| reflexivity].
  destruct points as [polys |]; cbn.
  - destruct (PyFloat.truediv _ _); cbn; [| reflexivity].
    destruct (running s); reflexivity.
  - destruct (running s); reflexivity.
Qed.

Lemma overlay_defined (s : App) (display : image) (points : option (list bbox)) :
  PyFloat.is_zero (decode_scale s) = false \/ points = None ->
  exists img, overlay s display points = Some img.
Proof.
  intros H. unfold overlay, PyFloat.truediv.
  destruct points as [polys |]; [| eexists; reflexivity].
  destruct H as [Hnz | Hnone]; [| discriminate].
  rewrite Hnz. eexists; reflexivity.
Qed.

(** ** Scales and resizes *)

Lemma one_accepted : accepted PyFloat.one = true.
Proof. vm_compute. reflexivity. Qed.

(** A scale that compares equal to 1.0, or one the resize accepts, is
    not zero: line 98 divides by it safely. *)
Lemma accepted_nonzero (scale : PyFloat.float64) :
  accepted scale = true -> PyFloat.is_zero scale = false.
Proof.
  unfold accepted. destruct scale as [sg | sg | | sg m e]; try reflexivity.
  destruct sg; vm_compute; discriminate.
Qed.

Lemma detect_frame_accepted (s : App) (frame : image) :
  detect_frame s frame
  = if accepted (decode_scale s)
    then Some (if PyFloat.ne (decode_scale s) PyFloat.one
               then Resize frame (decode_scale s) (decode_scale s)
               else frame)
    else None.
Proof.
  unfold detect_frame, accepted, cv2_resize.
  destruct (PyFloat.ne (decode_scale s) PyFloat.one); cbn [negb orb]; [| reflexivity].
  destruct (resizable (decode_scale s)); reflexivity.
Qed.

Lemma display_frame_accepted (s : App) (frame : image) :
  display_frame s frame
  = if accepted (display_scale s)
    then Some (if PyFloat.ne (display_scale s) PyFloat.one
               then Resize frame (display_scale s) (display_scale s)
               else frame)
    else None.
Proof.
  unfold display_frame, accepted, cv2_resize.
  destruct (PyFloat.ne (display_scale s) PyFloat.one); cbn [negb orb]; [| reflexivity].
  destruct (resizable (display_scale s)); reflexivity.
Qed.

Lemma detect_frame_nonzero (s : App) (frame detect : image) :
  detect_frame s frame = Some detect -> PyFloat.is_zero (decode_scale s) = false.
Proof.
  rewrite detect_frame_accepted. destruct (accepted (decode_scale s)) eqn:Hacc;
    [| discriminate].
  intros _. now apply accepted_nonzero.
Qed.

(** ** The camera helper and the resume action *)

#[local] Arguments update_frame : simpl never.

Lemma open_camera_run (o : open_answer) (s : App) :
  open_camera o s
  = mkRes (inr (opens o)) (set_video (mkVideo (opens o)) s)
          (open_calls (camera_index s) o
           ++ if opens o then [] else [camera_error (camera_index s)]).
Proof.
  unfold open_camera, opens, open_calls, camera_error, bind, get, ret, emit, modify.
  cbn. destruct (with_dshow o) as [[|] |]; cbn; try reflexivity.
  destruct (without_flag o); reflexivity.
Qed.

Lemma resume_scan_running (o : open_answer) (cam : camera_answer) (s : App) :
  running s = true -> resume_scan o cam s = mkRes (inr tt) s [].
Proof.
  intros Hrun. unfold resume_scan, bind, get, ret. cbn. now rewrite Hrun.
Qed.

Lemma resume_scan_refused (o : open_answer) (cam : camera_answer) (s : App) :
  running s = false ->
  opens o = false ->
  resume_scan o cam s
  = mkRes (inr tt) (set_video (mkVideo false) s)
          (open_calls (camera_index s) o ++ [camera_error (camera_index s)]).
Proof.
  intros Hrun Hopen. unfold resume_scan, bind, get, ret.
  rewrite Hrun, open_camera_run, Hopen. cbn. now rewrite app_nil_r.
Qed.

Lemma resume_scan_granted (o : open_answer) (cam : camera_answer) (s : App) :
  running s = false ->
  opens o = true ->
  resume_scan o cam s
  = let r := update_frame cam (resumed s) in
    mkRes (outcome r) (final r) (open_calls (camera_index s) o ++ trace r).
Proof.
  intros Hrun Hopen. unfold resume_scan, bind, get, ret, modify.
  rewrite Hrun, open_camera_run, Hopen. cbn. fold (resumed s).
  destruct (update_frame cam (resumed s)) as [o' s' t']. cbn.
  now rewrite app_nil_r.
Qed.

(** ** Every tick is one of six *)

Lemma update_frame_classified (cam : camera_answer) (s : App) :
  update_frame cam s
  = match classify cam s with
    | Idle => mkRes (inr tt) s []
    | ReadFailed => mkRes (inr tt) (set_status "Camera read failed" s) [After 200]
    | ResizeFailed => mkRes (inl Cv2Error) s []
    | Detected newest =>
        mkRes (inr tt) (detected newest s) [Release; ShowInfo "QR detected" newest]
    | Repeated frame points => show_frame frame points s
    | Waiting frame points =>
        show_frame frame points (set_status "Waiting for QR code..." s)
    end.
Proof.
  unfold classify.
  destruct (running s) eqn:Hrun; cbn [negb];
    [| now apply update_frame_paused].
  destruct (isOpened (video s)) eqn:Hopen;
    [| apply update_frame_read_failed; auto].
  destruct cam as [frame |];
    [| apply update_frame_read_failed; auto].
  destruct (detect_frame s frame) as [detect |] eqn:Hdetect;
    [| now apply update_frame_resize_failed].
  cbv zeta.
  destruct (fst (decode (detector s detect))) as [| t ts] eqn:Htexts.
  - now apply update_frame_waiting.
  - destruct (Py.ne_opt _ _) eqn:Hnew.
    + rewrite <- Htexts in Hnew |- *. apply update_frame_detected; auto.
      rewrite Htexts. discriminate.
    + rewrite <- Htexts in Hnew. apply update_frame_repeated; auto.
      rewrite Htexts. discriminate.
Qed.

Lemma show_frame_final (frame : image) (points : option (list bbox)) (s : App) :
  final (show_frame frame points s) = s.
Proof.
  rewrite show_frame_run. destruct (display_frame s frame) as [display |]; [| reflexivity].
  destruct (overlay s display points); reflexivity.
Qed.

Lemma show_frame_scheduled (frame : image) (points : option (list bbox)) (s : App) :
  (scheduled (trace (show_frame frame points s)) <= 1)%nat.
Proof.
  rewrite show_frame_run. destruct (display_frame s frame) as [display |]; [| cbn; lia].
  destruct (overlay s display points); cbn; [destruct (running s) |]; cbn; lia.
Qed.

(** A tick never leaves a text remembered in a session that still scans. *)
Lemma update_frame_memo_clear (cam : camera_answer) (s : App) :
  memo_clear s -> memo_clear (final (update_frame cam s)).
Proof.
  intros Hinv. rewrite update_frame_classified.
  destruct (classify cam s); cbn [final]; rewrite ?show_frame_final;
    try exact Hinv; unfold memo_clear; cbn; try exact Hinv; discriminate.
Qed.

Lemma resumed_memo_clear (s : App) : memo_clear (resumed s).
Proof. intros _. reflexivity. Qed.

Lemma resume_scan_memo_clear (o : open_answer) (cam : camera_answer) (s : App) :
  memo_clear s -> memo_clear (final (resume_scan o cam s)).
Proof.
  intros Hinv. destruct (running s) eqn:Hrun.
  - now rewrite resume_scan_running.
  - destruct (opens o) eqn:Hopen.
    + rewrite resume_scan_granted by assumption. cbn [final].
      apply update_frame_memo_clear, resumed_memo_clear.
    + rewrite resume_scan_refused by assumption. cbn [final].
      unfold memo_clear. cbn. congruence.
Qed.

Lemma on_close_run (s : App) :
  on_close s
  = mkRes (inr tt) (if isOpened (video s) then set_video (mkVideo false) s else s)
          (if isOpened (video s) then [Release; Destroy] else [Destroy]).
Proof.
  unfold on_close, release_if_opened, bind, get, ret, emit, modify. cbn.
  destruct (isOpened (video s)); reflexivity.
Qed.

Lemma step_memo_clear (w : session) (a : action) :
  memo_clear (app w) -> memo_clear (app (step w a)).
Proof.
  intros Hinv. unfold step. destruct (alive w); cbn [negb]; [| exact Hinv].
  destruct a as [cam | o cam |].
  - destruct (timers w); [exact Hinv |]. cbn [absorb app].
    now apply update_frame_memo_clear.
  - cbn [absorb app]. now apply resume_scan_memo_clear.
  - rewrite on_close_run. cbn [app final].
    destruct (isOpened (video (app w))); exact Hinv.
Qed.

Lemma run_memo_clear (l : list action) (w : session) :
  memo_clear (app w) -> memo_clear (app (run w l)).
Proof.
  revert w. induction l as [| a l IH]; intros w Hinv; [exact Hinv |].
  cbn [run fold_left]. apply IH. now apply step_memo_clear.
Qed.

(** With no timer registered, timers cannot fire: only the button or the
    window close change the session. *)
Lemma run_timers_idle (cams : list camera_answer) (w : session) :
  timers w = 0%nat -> run w (map Timer cams) = w.
Proof.
  intros Hnone. induction cams as [| cam cams IH]; [reflexivity |].
  cbn [map run fold_left]. unfold step at 2. rewrite Hnone.
  destruct (negb (alive w)); exact IH.
Qed.

(* ================================================================== *)
(** * The claims *)

(** C1: on a tick whose decoding yields at least one non-empty text, the
    newest of which differs from the text reported before, one entry (that
    text) is appended to the history, [running] becomes false, the camera
    handle is released and no timer is registered, so that no tick runs
    until the resume button is used. *)
Theorem new_detection_pauses (frame detect : image) (s : App) :
  running s = true ->
  isOpened (video s) = true ->
  detect_frame s frame = Some detect ->
  fst (decode (detector s detect)) <> [] ->
  last_result s <> Some (last (fst (decode (detector s detect))) "") ->
  let newest := last (fst (decode (detector s detect))) "" in
  let r := update_frame (Some frame) s in
  outcome r = inr tt
  /\ decoded_history (final r) = evict (history_size s) (decoded_history s ++ [newest])
  /\ (0 <= history_size s ->
      exists k : nat,
        decoded_history (final r) = skipn k (decoded_history s) ++ [newest]
        /\ (Z.of_nat (length (decoded_history s)) < history_size s -> k = 0%nat))
  /\ last_result (final r) = Some newest
  /\ running (final r) = false
  /\ isOpened (video (final r)) = false
  /\ trace r = [Release; ShowInfo "QR detected" newest]
  /\ scheduled (trace r) = 0%nat
  /\ (forall (w : session) (cams : list camera_answer),
        app w = s -> alive w = true -> timers w = 1%nat ->
        let w' := step w (Timer (Some frame)) in
        timers w' = 0%nat /\ run w' (map Timer cams) = w').
Proof.
  intros Hrun Hopen Hdetect Hne Hnew newest r.
  assert (Hr : r = mkRes (inr tt) (detected newest s)
                     [Release; ShowInfo "QR detected" newest]).
  { apply (update_frame_detected frame detect); auto. now apply ne_opt_true. }
  rewrite Hr. cbn [outcome final trace detected decoded_history last_result running
                   video isOpened].
  split_all; try reflexivity.
  - intros Hsize. destruct (evict_app_new (history_size s) (decoded_history s) newest Hsize)
      as [k [Hk Hfit]].
    exists k. split; assumption.
  - intros w cams Hw Halive Htimers.
    assert (Htw : timers (step w (Timer (Some frame))) = 0%nat).
    { unfold step. rewrite Halive, Htimers, Hw. cbn [negb absorb timers].
      fold r. rewrite Hr. reflexivity. }
    split; [exact Htw | now apply run_timers_idle].
Qed.

Lemma new_detection_pauses_witness :
  decoded_history paused0 = ["A"]
  /\ running paused0 = false
  /\ isOpened (video paused0) = false.
Proof.
  assert (Hne : fst (decode (detector scanning0 (Resize (Captured 1) four four))) <> [])
    by (vm_compute; discriminate).
  assert (Hnew : last_result scanning0
                 <> Some (last (fst (decode (detector scanning0
                                               (Resize (Captured 1) four four)))) ""))
    by (vm_compute; discriminate).
  destruct (new_detection_pauses (Captured 1) (Resize (Captured 1) four four) scanning0
              eq_refl eq_refl eq_refl Hne Hnew)
    as [_ [Hh [_ [_ [Hrun [Hvid _]]]]]].
  split; [| split]; [| exact Hrun | exact Hvid].
  unfold paused0. rewrite Hh. vm_compute. reflexivity.
Defined.

(** ** Read failures *)

(** A run of ticks that all fail to read: each one registers the next. *)
Lemma failing_ticks_run (cams : list camera_answer) (w : session) :
  running (app w) = true ->
  alive w = true ->
  timers w = 1%nat ->
  Forall (fun cam => isOpened (video (app w)) = false \/ cam = None) cams ->
  run w (map Timer cams)
  = mkSession (match cams with
               | [] => app w
               | _ :: _ => set_status "Camera read failed" (app w)
               end)
              1 true (log w ++ repeat (After 200) (length cams)).
Proof.
  revert w. induction cams as [| cam cams IH]; intros w Hrun Halive Htimers Hfail.
  - cbn. rewrite app_nil_r. destruct w; cbn in *; subst; reflexivity.
  - inversion Hfail as [| c cs Hcam Hrest]; subst.
    cbn [map run fold_left]. fold (run (step w (Timer cam)) (map Timer cams)).
    assert (Hstep : step w (Timer cam)
                    = mkSession (set_status "Camera read failed" (app w)) 1 true
                                (log w ++ [After 200])).
    { unfold step. rewrite Halive, Htimers. cbn [negb].
      rewrite (update_frame_read_failed cam (app w) Hrun Hcam).
      unfold absorb. cbn. now rewrite Halive. }
    rewrite Hstep. rewrite IH; cbn [app alive timers log running set_status];
      try assumption; try reflexivity.
    rewrite <- app_assoc. cbn [length repeat app].
    destruct cams; reflexivity.
Qed.

(** C5: a tick whose camera read fails while the session scans leaves the
    session as it was ([running] still true, history, memo and camera
    handle untouched, nothing released), sets the status to the failure
    message and registers the next tick 200 ms later; the tick ends
    normally, and any number of failing ticks in a row keep retrying. *)
Theorem read_failure_retries (cam : camera_answer) (s : App) :
  running s = true ->
  isOpened (video s) = false \/ cam = None ->
  let r := update_frame cam s in
  outcome r = inr tt
  /\ final r = set_status "Camera read failed" s
  /\ running (final r) = true
  /\ decoded_history (final r) = decoded_history s
  /\ last_result (final r) = last_result s
  /\ video (final r) = video s
  /\ ~ In Release (trace r)
  /\ status_var (final r) = "Camera read failed"
  /\ trace r = [After 200]
  /\ (forall (w : session) (cams : list camera_answer),
        app w = s -> alive w = true -> timers w = 1%nat ->
        Forall (fun c => isOpened (video s) = false \/ c = None) cams ->
        let w' := run w (map Timer (cam :: cams)) in
        app w' = set_status "Camera read failed" s
        /\ alive w' = true
        /\ timers w' = 1%nat
        /\ log w' = log w ++ repeat (After 200) (S (length cams))).
Proof.
  intros Hrun Hfail r.
  assert (Hr : r = mkRes (inr tt) (set_status "Camera read failed" s) [After 200])
    by now apply update_frame_read_failed.
  rewrite Hr. cbn [outcome final trace]. split_all; try reflexivity.
  - exact Hrun.
  - intros [Habs | []]. discriminate.
  - intros w cams Hw Halive Htimers Hcams.
    rewrite failing_ticks_run; try assumption; rewrite ?Hw; try assumption.
    + cbn. split_all; reflexivity.
    + constructor; assumption.
Qed.

Lemma read_failure_retries_witness :
  status_var (final (update_frame None scanning0)) = "Camera read failed"
  /\ trace (update_frame None scanning0) = [After 200]
  /\ timers (run session0 (map Timer [None; None; None])) = 1%nat.
Proof.
  destruct (read_failure_retries None scanning0 eq_refl (or_intror eq_refl))
    as [_ [_ [_ [_ [_ [_ [_ [Hstatus [Htrace Hloop]]]]]]]]].
  split; [exact Hstatus | split; [exact Htrace |]].
  assert (Hcams : Forall (fun c : camera_answer =>
                            isOpened (video scanning0) = false \/ c = None) [None; None])
    by (repeat constructor; now right).
  destruct (Hloop session0 [None; None] eq_refl eq_refl eq_refl Hcams) as [_ [_ [Ht _]]].
  exact Ht.
Defined.

(** ** Resume *)

(** C10: the resume action on a session that already scans does nothing:
    no camera is opened, [self] (running flag, memo, status, history) is
    unchanged and no tick is registered. *)
Theorem resume_while_scanning_is_noop (o : open_answer) (cam : camera_answer) (s : App) :
  running s = true ->
  resume_scan o cam s = mkRes (inr tt) s []
  /\ (forall w : session, app w = s -> step w (ResumeButton o cam) = w).
Proof.
  intros Hrun. split; [now apply resume_scan_running |].
  intros [a t al lg] Hw. cbn in Hw. subst a.
  unfold step. destruct al; cbn [negb alive]; [| reflexivity].
  cbn [app timers]. rewrite resume_scan_running by exact Hrun.
  unfold absorb. cbn. now rewrite app_nil_r, Nat.add_0_r.
Qed.

Lemma resume_while_scanning_is_noop_witness :
  resume_scan camera_ok (Some (Captured 1)) scanning0 = mkRes (inr tt) scanning0 []
  /\ step session0 (ResumeButton camera_ok (Some (Captured 1))) = session0.
Proof.
  destruct (resume_while_scanning_is_noop camera_ok (Some (Captured 1)) scanning0 eq_refl)
    as [Hcall Hstep].
  split; [exact Hcall | now apply Hstep].
Defined.

(** C7: when the camera cannot be opened the user gets the error dialog.
    At startup the constructor then ends with [SystemExit(1)] before any
    tick has run; in a resume action on a paused session the session stays
    paused: [running] is still false, the memo is not cleared, no tick runs
    or is registered, and the dialog is shown again. *)
Theorem open_failure_reported (o : open_answer) :
  opens o = false ->
  (forall s : App,
      outcome (open_camera o s) = inr false
      /\ last (trace (open_camera o s)) Destroy = camera_error (camera_index s))
  /\ (forall (det : image -> detection) (index size : Z) (ds dcs : PyFloat.float64)
             (cam : camera_answer),
         let r := QRScannerApp det index size ds dcs o cam in
         outcome r = inl (SystemExit 1)
         /\ trace r = open_calls index o ++ [camera_error index]
         /\ boot r = None)
  /\ (forall (s : App) (cam : camera_answer),
         running s = false ->
         let r := resume_scan o cam s in
         outcome r = inr tt
         /\ running (final r) = false
         /\ last_result (final r) = last_result s
         /\ decoded_history (final r) = decoded_history s
         /\ status_var (final r) = status_var s
         /\ isOpened (video (final r)) = false
         /\ trace r = open_calls (camera_index s) o ++ [camera_error (camera_index s)]
         /\ scheduled (trace r) = 0%nat).
Proof.
  intros Hopen. split_all.
  - intros s. rewrite open_camera_run, Hopen. cbn [outcome trace]. split; [reflexivity |].
    apply last_last.
  - intros det index size ds dcs cam.
    unfold QRScannerApp, init, bind, raise. rewrite open_camera_run, Hopen. cbn.
    rewrite app_nil_r. unfold boot. cbn. split_all; reflexivity.
  - intros s cam Hrun. rewrite resume_scan_refused by assumption.
    cbn [outcome final trace]. split_all; try reflexivity; try assumption.
    unfold scheduled, open_calls, camera_error.
    destruct (with_dshow o); reflexivity.
Qed.

Lemma open_failure_reported_witness :
  outcome (main_app sample_detector 3 camera_missing (Some (Captured 1)))
    = inl (SystemExit 1)
  /\ trace (main_app sample_detector 3 camera_missing (Some (Captured 1)))
     = [NewVideoCapture 3 true; NewVideoCapture 3 false;
        ShowError "Camera Error" "Cannot open camera index 3"]
  /\ running (final (resume_scan camera_missing (Some (Captured 1)) paused0)) = false
  /\ last_result (final (resume_scan camera_missing (Some (Captured 1)) paused0))
     = Some "A".
Proof.
  destruct (open_failure_reported camera_missing eq_refl) as [_ [Hinit Hresume]].
  destruct (Hinit sample_detector 3 20 half four (Some (Captured 1))) as [Hexit [Htrace _]].
  destruct (Hresume paused0 (Some (Captured 1)) eq_refl) as [_ [Hrun [Hmemo _]]].
  split; [exact Hexit | split; [exact Htrace | split; [exact Hrun | exact Hmemo]]].
Defined.

(** C6: a resume action on a paused session that gets the camera opens a
    new handle, clears the memo, sets [running] and runs a tick at once;
    whatever was reported before the pause, a text decoded by that tick or
    by any later tick of the scanning session is new again and is appended
    to the history. *)
Theorem resume_clears_memo (o : open_answer) (cam : camera_answer) (s : App) :
  running s = false ->
  opens o = true ->
  let r := resume_scan o cam s in
  (running (resumed s) = true
   /\ last_result (resumed s) = None
   /\ isOpened (video (resumed s)) = true
   /\ decoded_history (resumed s) = decoded_history s)
  /\ outcome r = outcome (update_frame cam (resumed s))
  /\ final r = final (update_frame cam (resumed s))
  /\ trace r = open_calls (camera_index s) o ++ trace (update_frame cam (resumed s))
  /\ (forall frame detect : image,
        cam = Some frame ->
        detect_frame s frame = Some detect ->
        fst (decode (detector s detect)) <> [] ->
        let newest := last (fst (decode (detector s detect))) "" in
        decoded_history (final r)
        = evict (history_size s) (decoded_history s ++ [newest])
        /\ last_result (final r) = Some newest
        /\ running (final r) = false)
  /\ (forall (w : session) (l : list action) (frame detect : image),
        app w = s ->
        let s' := app (run (step w (ResumeButton o cam)) l) in
        running s' = true ->
        isOpened (video s') = true ->
        detect_frame s' frame = Some detect ->
        fst (decode (detector s' detect)) <> [] ->
        let newest := last (fst (decode (detector s' detect))) "" in
        decoded_history (final (update_frame (Some frame) s'))
        = evict (history_size s') (decoded_history s' ++ [newest])).
Proof.
  intros Hrun Hopen r.
  assert (Hr : r = mkRes (outcome (update_frame cam (resumed s)))
                     (final (update_frame cam (resumed s)))
                     (open_calls (camera_index s) o ++ trace (update_frame cam (resumed s))))
    by now apply resume_scan_granted.
  split_all; try reflexivity; try (rewrite Hr; reflexivity).
  - intros frame detect -> Hdetect Hne. rewrite Hr. cbn [final].
    change (detector s) with (detector (resumed s)) in *.
    change (detect_frame s frame) with (detect_frame (resumed s) frame) in *.
    rewrite (update_frame_detected frame detect);
      [| reflexivity | reflexivity | exact Hdetect | exact Hne | apply ne_opt_None].
    cbn [final detected decoded_history last_result running]. split_all; reflexivity.
  - intros w l frame detect Hw. cbn zeta. intros Hrun' Hopen' Hdetect Hne.
    set (s' := app (run (step w (ResumeButton o cam)) l)) in *.
    assert (Hclear : memo_clear s').
    { apply run_memo_clear. unfold step. destruct (alive w); cbn [negb].
      - cbn [absorb app]. rewrite Hw. fold r. rewrite Hr. cbn [final].
        apply update_frame_memo_clear, resumed_memo_clear.
      - rewrite Hw. intros Habs. congruence. }
    rewrite (update_frame_detected frame detect);
      [reflexivity | exact Hrun' | exact Hopen' | exact Hdetect | exact Hne |].
    rewrite (Hclear Hrun'). apply ne_opt_None.
Qed.

Lemma resume_clears_memo_witness :
  last_result paused0 = Some "A"
  /\ decoded_history (final (resume_scan camera_ok (Some (Captured 1)) paused0))
     = ["A"; "A"].
Proof.
  split; [reflexivity |].
  destruct (resume_clears_memo camera_ok (Some (Captured 1)) paused0 eq_refl eq_refl)
    as [_ [_ [_ [_ [Hagain _]]]]].
  assert (Hne : fst (decode (detector paused0 (Resize (Captured 1) four four))) <> [])
    by (vm_compute; discriminate).
  destruct (Hagain (Captured 1) (Resize (Captured 1) four four) eq_refl eq_refl Hne)
    as [Hh _].
  rewrite Hh. vm_compute. reflexivity.
Defined.

(** ** The decode step *)

(** C8 as stated fails: the detector locates a code it cannot decode
    (frame 2); [decode_qr] returns no text and yet the polygon. *)
Lemma decode_qr_polygon_without_text :
  outcome (decode_qr (Captured 2) scanning0) = inr ([], Some [square])
  /\ ~ (forall texts points,
          outcome (decode_qr (Captured 2) scanning0) = inr (texts, points) ->
          points <> None -> texts <> []).
Proof.
  split; [reflexivity |].
  intros Hclaim. apply (Hclaim [] (Some [square])); [reflexivity | discriminate | reflexivity].
Qed.

(** C8, amended: [decode_qr] returns only non-empty texts, namely the
    non-empty strings of the detector's answer in their order, and it
    returns the polygons exactly when the detector reports success
    ([retval]); without success it returns no text and no polygon.  The
    call changes nothing and calls nothing outside. *)
Theorem decode_qr_filters (frame : image) (s : App) :
  exists (texts : list string) (points : option (list bbox)),
    decode_qr frame s = mkRes (inr (texts, points)) s []
    /\ Forall (fun t => t <> "") texts
    /\ (forall t, In t texts <-> retval (detector s frame) = true
                                 /\ In t (decoded_info (detector s frame)) /\ t <> "")
    /\ (retval (detector s frame) = true ->
        texts = filter Py.truthy (decoded_info (detector s frame))
        /\ points = pts (detector s frame))
    /\ (retval (detector s frame) = false -> texts = [] /\ points = None)
    /\ (points <> None -> retval (detector s frame) = true)
    /\ (texts <> [] -> points = pts (detector s frame)).
Proof.
  assert (Htruthy : forall t, Py.truthy t = true <-> t <> "").
  { intros [| c t]; unfold Py.truthy; split; congruence. }
  exists (fst (decode (detector s frame))), (snd (decode (detector s frame))).
  split_all.
  - unfold decode_qr, bind, get, ret. cbn.
    now destruct (decode (detector s frame)).
  - pose proof (decode_texts_truthy (detector s frame)) as Hall.
    rewrite Forall_forall in *. intros t Ht. apply Htruthy. now apply Hall.
  - intros t. unfold decode. destruct (retval (detector s frame)); cbn [fst].
    + rewrite filter_In, Htruthy. tauto.
    + cbn. split; [tauto | intros [Habs _]; discriminate].
  - intros Hret. unfold decode. rewrite Hret. split; reflexivity.
  - intros Hret. unfold decode. rewrite Hret. split; reflexivity.
  - unfold decode. destruct (retval (detector s frame)); cbn; congruence.
  - unfold decode. destruct (retval (detector s frame)); cbn; congruence.
Qed.

(** ** Display *)

Lemma strokes_fold_bbox (factor : PyFloat.float64) (polys : list bbox) (img : image) :
  strokes (fold_left (draw_bbox factor) polys img)
  = strokes img ++ flat_map (fun b => closed_outline (rescale factor b)) polys.
Proof.
  revert img. induction polys as [| b polys IH]; intros img; cbn [fold_left flat_map].
  - now rewrite app_nil_r.
  - rewrite IH. unfold draw_bbox. rewrite draw_outline_strokes.
    now rewrite <- app_assoc.
Qed.

Lemma closed_outline_length (pts : list point) :
  length (closed_outline pts) = length pts.
Proof. unfold closed_outline. rewrite length_combine, rotate_length. lia. Qed.

Lemma closed_outline_nth (pts : list point) (i : nat) :
  (i < length pts)%nat ->
  nth i (closed_outline pts) ((0, 0), (0, 0))
  = (nth i pts (0, 0), nth ((i + 1) mod length pts)%nat pts (0, 0)).
Proof.
  intros Hi. unfold closed_outline.
  rewrite combine_nth by (now rewrite rotate_length).
  now rewrite rotate_nth.
Qed.

Lemma update_frame_shows (frame detect : image) (s : App) :
  shows frame detect s ->
  exists s1 : App,
    (s1 = s \/ s1 = set_status "Waiting for QR code..." s)
    /\ update_frame (Some frame) s
       = show_frame frame (snd (decode (detector s detect))) s1.
Proof.
  intros [Hrun [Hopen [Hdetect Hkind]]].
  destruct (fst (decode (detector s detect))) as [| t ts] eqn:Htexts.
  - exists (set_status "Waiting for QR code..." s). split; [now right |].
    now apply update_frame_waiting.
  - destruct Hkind as [Habs | Hsame]; [discriminate |].
    exists s. split; [now left |].
    apply update_frame_repeated; auto.
    + rewrite Htexts. discriminate.
    + rewrite Htexts, Hsame. apply ne_opt_same.
Qed.

(** C9 as stated fails: on the tick of a new detection (frame 1 in front
    of the scanning session) nothing is rendered; and in a session built
    with a display-scale of zero the resize of line 93 raises, so that a
    tick that reads an empty scene renders nothing either. *)
Lemma detection_tick_renders_nothing :
  classify (Some (Captured 1)) scanning0 = Detected "A"
  /\ rendered (trace (update_frame (Some (Captured 1)) scanning0)) = []
  /\ ~ (exists img, In (ConfigureImage img)
                       (trace (update_frame (Some (Captured 1)) scanning0)))
  /\ update_frame (Some (Captured 0)) frozen0
     = mkRes (inl Cv2Error) frozen0 [].
Proof.
  split; [reflexivity | split; [reflexivity | split; [| vm_compute; reflexivity]]].
  intros [img Hin]. vm_compute in Hin.
  destruct Hin as [Habs | [Habs | []]]; discriminate.
Qed.

Lemma display_frame_unscaled (frame : image) (s : App) :
  PyFloat.ne (display_scale s) PyFloat.one = false -> display_frame s frame = Some frame.
Proof. intros Hone. unfold display_frame. now rewrite Hone. Qed.

Lemma display_frame_scaled (frame : image) (s : App) :
  PyFloat.ne (display_scale s) PyFloat.one = true ->
  display_frame s frame = cv2_resize frame (display_scale s).
Proof. intros Hne. unfold display_frame. now rewrite Hne. Qed.

Lemma display_frame_value (frame display : image) (s : App) :
  display_frame s frame = Some display ->
  display = if PyFloat.ne (display_scale s) PyFloat.one
            then Resize frame (display_scale s) (display_scale s)
            else frame.
Proof.
  rewrite display_frame_accepted. destruct (accepted (display_scale s)); congruence.
Qed.

Lemma one_is_one : PyFloat.ne PyFloat.one PyFloat.one = false.
Proof. reflexivity. Qed.

(** C9, amended: on every tick in which a frame is read successfully and
    the resize calls return, except the tick on which a new detection
    occurs, the display frame is the raw frame resized by display-scale
    (the raw frame itself when display-scale is 1.0), the outlines of the
    detected polygons are drawn on it and the result is rendered, then the
    next tick is registered.  On the tick of a new detection the callback
    returns before a display frame is made, and when [cv2.resize] rejects
    the display-scale the tick ends in [cv2.error]: nothing is rendered
    and no tick is registered. *)
Theorem tick_renders_unless_detected (frame detect : image) (s : App) :
  running s = true ->
  isOpened (video s) = true ->
  let r := update_frame (Some frame) s in
  let points := snd (decode (detector s detect)) in
  (forall display : image,
      shows frame detect s ->
      display_frame s frame = Some display ->
      exists img : image,
        outcome r = inr tt
        /\ trace r = [ConfigureImage (CvtColor img); After 10]
        /\ rendered (trace r) = [CvtColor img]
        /\ overlay s display points = Some img
        /\ display = (if PyFloat.ne (display_scale s) PyFloat.one
                      then Resize frame (display_scale s) (display_scale s)
                      else frame)
        /\ (points = None -> img = display)
        /\ (forall polys, points = Some polys ->
            exists factor,
              PyFloat.truediv (display_scale s) (decode_scale s) = Some factor
              /\ img = fold_left (draw_bbox factor) polys display
              /\ strokes img
                 = strokes display
                   ++ flat_map (fun b => closed_outline (rescale factor b)) polys))
  /\ (PyFloat.ne (display_scale s) PyFloat.one = true ->
      display_frame s frame = cv2_resize frame (display_scale s))
  /\ (PyFloat.ne (display_scale s) PyFloat.one = false ->
      display_frame s frame = Some frame)
  /\ (display_scale s = PyFloat.one -> display_frame s frame = Some frame)
  /\ (forall newest, classify (Some frame) s = Detected newest ->
      rendered (trace r) = [] /\ scheduled (trace r) = 0%nat)
  /\ (shows frame detect s ->
      display_frame s frame = None ->
      outcome r = inl Cv2Error /\ trace r = []).
Proof.
  intros Hrun Hopen r points. split_all.
  - intros display Hshows Hdisplay.
    destruct (update_frame_shows frame detect s Hshows) as [s1 [Hs1 Hr]].
    fold points r in Hr.
    assert (Hnz : PyFloat.is_zero (decode_scale s) = false).
    { destruct Hshows as [_ [_ [Hdetect _]]]. now apply (detect_frame_nonzero s frame detect). }
    destruct (overlay_defined s display points (or_introl Hnz)) as [img Himg].
    assert (Himg1 : overlay s1 display points = Some img)
      by (destruct Hs1; subst s1; exact Himg).
    assert (Hdisplay1 : display_frame s1 frame = Some display)
      by (destruct Hs1; subst s1; exact Hdisplay).
    assert (Hrun1 : running s1 = true) by (destruct Hs1; subst s1; exact Hrun).
    exists img. rewrite Hr, show_frame_run, Hdisplay1, Himg1, Hrun1. cbn [outcome trace].
    split_all; try reflexivity; try exact Himg.
    + now apply display_frame_value.
    + intros Hnone. rewrite Hnone in Himg. cbn in Himg. congruence.
    + intros polys Hpolys. rewrite Hpolys in Himg. unfold overlay in Himg.
      destruct (PyFloat.truediv (display_scale s) (decode_scale s)) as [factor |];
        [| discriminate].
      exists factor. injection Himg as <-. split_all; try reflexivity.
      apply strokes_fold_bbox.
  - apply display_frame_scaled.
  - apply display_frame_unscaled.
  - intros Hone. apply display_frame_unscaled. rewrite Hone. apply one_is_one.
  - intros newest Hkind. subst r. rewrite update_frame_classified, Hkind.
    split; reflexivity.
  - intros Hshows Hnone.
    destruct (update_frame_shows frame detect s Hshows) as [s1 [Hs1 Hr]].
    fold points r in Hr.
    assert (Hnone1 : display_frame s1 frame = None)
      by (destruct Hs1; subst s1; exact Hnone).
    rewrite Hr, show_frame_run, Hnone1. split; reflexivity.
Qed.

Lemma tick_renders_unless_detected_witness :
  rendered (trace (update_frame (Some (Captured 2)) scanning0))
  = [CvtColor
       (Line (Line (Line (Line (Resize (Captured 2) half half)
                               (12, 25) (37, 25) green 2)
                         (37, 25) (37, 50) green 2)
                   (37, 50) (12, 50) green 2)
             (12, 50) (12, 25) green 2)].
Proof.
  destruct (tick_renders_unless_detected (Captured 2) (Resize (Captured 2) four four)
              scanning0 eq_refl eq_refl) as [Hshown _].
  destruct (Hshown (Resize (Captured 2) half half)) as [img [_ [_ [Hrendered [Himg _]]]]].
  - split; [reflexivity | split; [reflexivity | split; [reflexivity | left; reflexivity]]].
  - reflexivity.
  - rewrite Hrendered. vm_compute in Himg. injection Himg as <-. reflexivity.
Defined.

(** ** The scale factor of [main] *)

Lemma main_scale_factor : PyFloat.truediv half four = Some eighth.
Proof. vm_compute. reflexivity. Qed.

(** Pixel coordinates up to 4095 times 0.125: the integer quotient by 8. *)
Lemma eighth_of_pixels :
  forallb (fun k => PyFloat.astype_int
                      (PyFloat.mul32 (PyFloat.f32 (Z.of_nat k) 0) (PyFloat.to_f32 eighth))
                    =? Z.of_nat k / 8)
          (seq 0 4096) = true.
Proof. vm_compute. reflexivity. Qed.

Lemma eighth_of_pixel (n : Z) :
  0 <= n < 4096 ->
  PyFloat.astype_int (PyFloat.mul32 (PyFloat.f32 n 0) (PyFloat.to_f32 eighth)) = n / 8.
Proof.
  intros Hn.
  pose proof eighth_of_pixels as Hall. rewrite forallb_forall in Hall.
  assert (Hin : In (Z.to_nat n) (seq 0 4096)) by (apply in_seq; lia).
  apply Hall in Hin. rewrite Z2Nat.id in Hin by lia.
  now apply Z.eqb_eq in Hin.
Qed.

Lemma rescale_length (factor : PyFloat.float64) (b : bbox) :
  length (rescale factor b) = length b.
Proof. unfold rescale. apply length_map. Qed.

Lemma rescale_nth (factor : PyFloat.float64) (b : bbox) (i : nat) :
  (i < length b)%nat ->
  nth i (rescale factor b) (0, 0)
  = (PyFloat.astype_int
       (PyFloat.mul32 (fst (nth i b (S754_zero false, S754_zero false)))
                      (PyFloat.to_f32 factor)),
     PyFloat.astype_int
       (PyFloat.mul32 (snd (nth i b (S754_zero false, S754_zero false)))
                      (PyFloat.to_f32 factor))).
Proof.
  unfold rescale. revert i.
  induction b as [| p b IH]; intros [| i] Hi; cbn [length] in Hi; try lia.
  - reflexivity.
  - cbn [map nth]. apply IH. lia.
Qed.

(** C4: when a tick draws polygons on the display frame, the factor is
    the float quotient display-scale / decode-scale; every corner of every
    polygon is multiplied by it (in [float32]) and cut to an integer
    before it is drawn; each polygon is drawn as a closed outline: edge
    [i] joins corner [i] to corner [i+1], and the last edge joins the last
    corner to the first.  With decode-scale 4.0 and display-scale 0.5 the
    factor is 0.125. *)
Theorem polygons_rescaled_and_closed (frame detect display : image) (s : App)
    (polys : list bbox) :
  shows frame detect s ->
  snd (decode (detector s detect)) = Some polys ->
  display_frame s frame = Some display ->
  let factor := SFdiv PyFloat.prec64 PyFloat.emax64 (display_scale s) (decode_scale s) in
  exists img : image,
    rendered (trace (update_frame (Some frame) s)) = [CvtColor img]
    /\ strokes img
       = strokes display
         ++ flat_map (fun b => closed_outline (rescale factor b)) polys
    /\ (forall b i, In b polys -> (i < length b)%nat ->
        nth i (closed_outline (rescale factor b)) ((0, 0), (0, 0))
        = (nth i (rescale factor b) (0, 0),
           nth ((i + 1) mod length b)%nat (rescale factor b) (0, 0))
        /\ nth i (rescale factor b) (0, 0)
           = (PyFloat.astype_int
                (PyFloat.mul32 (fst (nth i b (S754_zero false, S754_zero false)))
                               (PyFloat.to_f32 factor)),
              PyFloat.astype_int
                (PyFloat.mul32 (snd (nth i b (S754_zero false, S754_zero false)))
                               (PyFloat.to_f32 factor))))
    /\ (forall b, In b polys ->
        length (closed_outline (rescale factor b)) = length b)
    /\ (display_scale s = half -> decode_scale s = four ->
        factor = eighth
        /\ forall n, 0 <= n < 4096 ->
             PyFloat.astype_int (PyFloat.mul32 (PyFloat.f32 n 0) (PyFloat.to_f32 factor))
             = n / 8).
Proof.
  intros Hshows Hpolys Hdisplay factor.
  destruct (update_frame_shows frame detect s Hshows) as [s1 [Hs1 Hr]].
  assert (Hnz : PyFloat.is_zero (decode_scale s) = false).
  { destruct Hshows as [_ [_ [Hdetect _]]]. now apply (detect_frame_nonzero s frame detect). }
  assert (Hrun1 : running s1 = true)
    by (destruct Hshows as [Hrun _]; destruct Hs1; subst s1; exact Hrun).
  assert (Hdisplay1 : display_frame s1 frame = Some display)
    by (destruct Hs1; subst s1; exact Hdisplay).
  assert (Hov : overlay s1 display (Some polys)
                = Some (fold_left (draw_bbox factor) polys display)).
  { assert (Hov : overlay s display (Some polys)
                  = Some (fold_left (draw_bbox factor) polys display))
      by (unfold overlay, PyFloat.truediv; now rewrite Hnz).
    destruct Hs1; subst s1; exact Hov. }
  exists (fold_left (draw_bbox factor) polys display).
  rewrite Hr, Hpolys, show_frame_run, Hdisplay1, Hov, Hrun1. cbn [trace].
  split_all.
  - reflexivity.
  - apply strokes_fold_bbox.
  - intros b i _ Hi. split.
    + rewrite closed_outline_nth by (now rewrite rescale_length).
      now rewrite rescale_length.
    + now apply rescale_nth.
  - intros b _. now rewrite closed_outline_length, rescale_length.
  - intros Hds Hdcs.
    assert (Hfactor : factor = eighth)
      by (subst factor; rewrite Hds, Hdcs; vm_compute; reflexivity).
    split; [exact Hfactor |].
    intros n Hn. rewrite Hfactor. now apply eighth_of_pixel.
Qed.

Lemma polygons_rescaled_and_closed_witness :
  exists img : image,
    rendered (trace (update_frame (Some (Captured 2)) scanning0)) = [CvtColor img]
    /\ strokes img
       = [((12, 25), (37, 25)); ((37, 25), (37, 50));
          ((37, 50), (12, 50)); ((12, 50), (12, 25))].
Proof.
  assert (Hshows : shows (Captured 2) (Resize (Captured 2) four four) scanning0)
    by (split; [reflexivity | split; [reflexivity | split; [reflexivity | left; reflexivity]]]).
  destruct (polygons_rescaled_and_closed (Captured 2) (Resize (Captured 2) four four)
              (Resize (Captured 2) half half) scanning0 [square]
              Hshows eq_refl eq_refl) as [img [Hrendered [Hstrokes _]]].
  exists img. split; [exact Hrendered |].
  rewrite Hstrokes. vm_compute. reflexivity.
Defined.

(** ** The history *)

Lemma append_history_run (text : string) (s : App) :
  Py.truthy text = true ->
  append_history text s
  = mkRes (inr tt)
          (set_decoded_box
             (Py.join Py.newline (evict (history_size s) (decoded_history s ++ [text])))
             (set_decoded_history (evict (history_size s) (decoded_history s ++ [text])) s))
          [].
Proof.
  intros Htext. unfold append_history. rewrite Htext. reflexivity.
Qed.

Lemma append_history_empty (s : App) : append_history "" s = mkRes (inr tt) s [].
Proof. reflexivity. Qed.

(** With a positive maximum the history stays within it, and what is
    kept is the newest part of the old history followed by the new text. *)
Lemma append_history_bounded (text : string) (s : App) :
  0 < history_size s ->
  Py.truthy text = true ->
  let h := decoded_history (final (append_history text s)) in
  Z.of_nat (length h) <= history_size s
  /\ h = skipn (length (decoded_history s) + 1 - Z.to_nat (history_size s))
               (decoded_history s ++ [text])
  /\ decoded_box (final (append_history text s)) = Py.join Py.newline h.
Proof.
  intros Hsize Htext. rewrite append_history_run by exact Htext.
  cbn [final set_decoded_box set_decoded_history decoded_history decoded_box].
  split_all.
  - now apply evict_length.
  - rewrite evict_skipn by exact Hsize. rewrite length_app. reflexivity.
  - reflexivity.
Qed.

Lemma append_history_size (text : string) (s : App) :
  history_size (final (append_history text s)) = history_size s.
Proof.
  unfold append_history. destruct (Py.truthy text); reflexivity.
Qed.

(** However many texts are appended, what is kept is a suffix of the old
    history followed by the new texts: insertion order, oldest dropped. *)
Lemma appends_suffix (texts : list string) (s : App) :
  Forall (fun t => Py.truthy t = true) texts ->
  exists k : nat, decoded_history (appends texts s) = skipn k (decoded_history s ++ texts).
Proof.
  revert s. induction texts as [| t texts IH]; intros s Hall.
  - exists 0%nat. cbn. now rewrite app_nil_r.
  - inversion Hall as [| t' ts' Ht Hrest]; subst.
    destruct (IH (final (append_history t s)) Hrest) as [k Hk].
    cbn [appends fold_left]. fold (appends texts (final (append_history t s))).
    rewrite Hk, append_history_run by exact Ht.
    cbn [final set_decoded_box set_decoded_history decoded_history].
    destruct (evict_suffix (history_size s) (decoded_history s ++ [t])) as [k1 [Hk1 ->]].
    exists (k + k1)%nat.
    replace (decoded_history s ++ t :: texts) with ((decoded_history s ++ [t]) ++ texts)
      by (now rewrite <- app_assoc).
    rewrite <- skipn_skipn. f_equal.
    rewrite (skipn_app k1 (decoded_history s ++ [t]) texts).
    replace (k1 - length (decoded_history s ++ [t]))%nat with 0%nat by lia.
    reflexivity.
Qed.

Lemma appends_bounded (texts : list string) (s : App) :
  0 < history_size s ->
  Forall (fun t => Py.truthy t = true) texts ->
  Z.of_nat (length (decoded_history s)) <= history_size s ->
  Z.of_nat (length (decoded_history (appends texts s))) <= history_size s.
Proof.
  revert s. induction texts as [| t texts IH]; intros s Hsize Hall Hinit; [exact Hinit |].
  inversion Hall as [| t' ts' Ht Hrest]; subst.
  cbn [appends fold_left]. fold (appends texts (final (append_history t s))).
  rewrite <- (append_history_size t s). apply IH.
  - now rewrite append_history_size.
  - exact Hrest.
  - rewrite append_history_size. now apply append_history_bounded.
Qed.

(** With a maximum of 0 the history only grows. *)
Lemma appends_unbounded (texts : list string) (s : App) :
  history_size s = 0 ->
  Forall (fun t => Py.truthy t = true) texts ->
  decoded_history (appends texts s) = decoded_history s ++ texts.
Proof.
  revert s. induction texts as [| t texts IH]; intros s Hzero Hall.
  - cbn. now rewrite app_nil_r.
  - inversion Hall as [| t' ts' Ht Hrest]; subst.
    cbn [appends fold_left]. fold (appends texts (final (append_history t s))).
    rewrite IH; [| now rewrite append_history_size | exact Hrest].
    rewrite append_history_run by exact Ht.
    cbn [final set_decoded_box set_decoded_history decoded_history].
    rewrite Hzero, evict_zero. now rewrite <- app_assoc.
Qed.

(** Maximum 20, 25 distinct texts: "a" to "e" are gone, "f" to "y" are
    kept in order. *)
Lemma twenty_of_twenty_five :
  length letters = 25%nat
  /\ NoDup letters
  /\ decoded_history (appends letters scanning0) = skipn 5 letters.
Proof.
  split; [reflexivity | split; [| vm_compute; reflexivity]].
  vm_compute. repeat (constructor; [cbn; intuition discriminate |]). constructor.
Qed.

(** C3 fails on the code for a maximum of 0: [h[-0:]] is the whole list,
    so nothing is ever evicted and the history outgrows the maximum. *)
Theorem history_cap_zero_not_enforced :
  history_size unbounded0 = 0
  /\ decoded_history (final (append_history "a" unbounded0)) = ["a"]
  /\ decoded_history (appends ["a"; "b"; "c"] unbounded0) = ["a"; "b"; "c"]
  /\ ~ (Z.of_nat (length (decoded_history (final (append_history "a" unbounded0))))
        <= history_size unbounded0).
Proof.
  vm_compute. split_all; try reflexivity. intros H. apply H. reflexivity.
Qed.

(* ================================================================== *)
(** * Further properties *)

(** ** What a callback can do to [self] *)

Lemma classify_detected (cam : camera_answer) (s : App) (newest : string) :
  classify cam s = Detected newest ->
  running s = true /\ isOpened (video s) = true /\ Py.truthy newest = true
  /\ last_result s <> Some newest
  /\ exists frame detect,
       cam = Some frame /\ detect_frame s frame = Some detect
       /\ newest = last (fst (decode (detector s detect))) ""
       /\ fst (decode (detector s detect)) <> [].
Proof.
  unfold classify. cbv zeta.
  destruct (running s); cbn [negb]; [| discriminate].
  destruct (isOpened (video s)); [| discriminate].
  destruct cam as [frame |]; [| discriminate].
  destruct (detect_frame s frame) as [detect |] eqn:Hdetect; [| discriminate].
  pose proof (newest_truthy (detector s detect)) as Htruthy.
  destruct (fst (decode (detector s detect))) as [| t ts] eqn:Htexts;
    [discriminate |].
  destruct (Py.ne_opt _ _) eqn:Hnew; [| discriminate].
  intros [= <-]. split_all; try reflexivity.
  - apply Htruthy. discriminate.
  - now apply ne_opt_true.
  - exists frame, detect. rewrite Htexts.
    split_all; try reflexivity; [exact Hdetect | discriminate].
Qed.

Lemma classify_repeated (cam : camera_answer) (s : App) (frame : image)
    (points : option (list bbox)) :
  classify cam s = Repeated frame points ->
  running s = true /\ exists t, last_result s = Some t.
Proof.
  unfold classify. cbv zeta.
  destruct (running s); cbn [negb]; [| discriminate].
  destruct (isOpened (video s)); [| discriminate].
  destruct cam as [f |]; [| discriminate].
  destruct (detect_frame s f) as [detect |]; [| discriminate].
  destruct (fst (decode (detector s detect))) as [| t ts]; [discriminate |].
  destruct (last_result s) as [u |]; [intros _; split; [reflexivity | now exists u] |].
  rewrite ne_opt_None. discriminate.
Qed.

(** A tick leaves [self] alone, or changes the status only, or is a
    detection. *)
Lemma update_frame_final_cases (cam : camera_answer) (s : App) :
  final (update_frame cam s) = s
  \/ (running s = true /\ exists m, final (update_frame cam s) = set_status m s)
  \/ (exists newest, classify cam s = Detected newest
                      /\ update_frame cam s
                         = mkRes (inr tt) (detected newest s)
                                 [Release; ShowInfo "QR detected" newest]).
Proof.
  rewrite update_frame_classified.
  destruct (classify cam s) as [| | | newest | frame points | frame points] eqn:Hkind;
    cbn [final].
  - now left.
  - right; left. split; [| now eexists].
    unfold classify in Hkind. destruct (running s); [reflexivity | discriminate].
  - now left.
  - right; right. now exists newest.
  - left. apply show_frame_final.
  - right; left. split; [| rewrite show_frame_final; now eexists].
    unfold classify in Hkind. destruct (running s); [reflexivity | discriminate].
Qed.

Lemma skipn_Forall {A : Type} (P : A -> Prop) (k : nat) (l : list A) :
  Forall P l -> Forall P (skipn k l).
Proof.
  intros Hall. rewrite <- (firstn_skipn k l) in Hall.
  now apply Forall_app in Hall.
Qed.

Lemma truthy_nonempty (t : string) : Py.truthy t = true <-> t <> "".
Proof. destruct t; unfold Py.truthy; split; congruence. Qed.

Lemma detected_tidy (newest : string) (s : App) :
  Py.truthy newest = true -> tidy s -> tidy (detected newest s).
Proof.
  intros Htruthy [_ [_ [Hne [_ Hfit]]]].
  unfold tidy, memo_clear, detected; cbn. split_all; try reflexivity; try discriminate.
  - destruct (evict_suffix (history_size s) (decoded_history s ++ [newest])) as [k [_ ->]].
    apply skipn_Forall, Forall_app. split; [exact Hne |].
    constructor; [now apply truthy_nonempty | constructor].
  - intros Hsize. now apply evict_length.
Qed.

Lemma set_status_tidy (m : string) (s : App) : tidy s -> tidy (set_status m s).
Proof. intros H. exact H. Qed.

Lemma update_frame_tidy (cam : camera_answer) (s : App) :
  tidy s -> tidy (final (update_frame cam s)).
Proof.
  intros Htidy.
  destruct (update_frame_final_cases cam s) as [-> | [[_ [m ->]] | [newest [Hkind ->]]]].
  - exact Htidy.
  - now apply set_status_tidy.
  - cbn [final]. apply detected_tidy; [| exact Htidy].
    now destruct (classify_detected cam s newest Hkind) as [_ [_ [Ht _]]].
Qed.

Lemma resumed_tidy (s : App) : tidy s -> tidy (resumed s).
Proof.
  intros [_ [_ [Hne [Hbox Hfit]]]].
  unfold tidy, memo_clear, resumed; cbn. split_all; try assumption; try reflexivity.
  discriminate.
Qed.

Lemma resume_scan_tidy (o : open_answer) (cam : camera_answer) (s : App) :
  tidy s -> tidy (final (resume_scan o cam s)).
Proof.
  intros Htidy. destruct (running s) eqn:Hrun.
  - now rewrite resume_scan_running.
  - destruct (opens o) eqn:Hopen.
    + rewrite resume_scan_granted by assumption. cbn [final].
      now apply update_frame_tidy, resumed_tidy.
    + rewrite resume_scan_refused by assumption. cbn [final].
      destruct Htidy as [_ [Hmemo [Hne [Hbox Hfit]]]].
      unfold tidy, memo_clear; cbn. split_all; try assumption; try reflexivity.
Qed.

Lemma on_close_tidy (s : App) : tidy s -> tidy (final (on_close s)).
Proof.
  intros Htidy. rewrite on_close_run. cbn [final].
  destruct (isOpened (video s)); [| exact Htidy].
  destruct Htidy as [_ [Hmemo [Hne [Hbox Hfit]]]].
  unfold tidy, memo_clear; cbn. split_all; try assumption; try reflexivity.
Qed.

(** ** What the main loop keeps *)

Lemma scheduled_app (t1 t2 : list event) :
  scheduled (t1 ++ t2) = (scheduled t1 + scheduled t2)%nat.
Proof. unfold scheduled. now rewrite filter_app, length_app. Qed.

Lemma scheduled_open_calls (index : Z) (o : open_answer) :
  scheduled (open_calls index o) = 0%nat.
Proof. unfold open_calls. destruct (with_dshow o); reflexivity. Qed.

Lemma update_frame_timer (cam : camera_answer) (s : App) :
  running s = true ->
  (scheduled (trace (update_frame cam s)) <= 1)%nat
  /\ (running (final (update_frame cam s)) = false ->
      scheduled (trace (update_frame cam s)) = 0%nat).
Proof.
  intros Hrun. rewrite update_frame_classified.
  destruct (classify cam s) as [| | | newest | frame points | frame points];
    cbn [final trace].
  - split; [cbn; lia | reflexivity].
  - split; [cbn; lia | cbn; congruence].
  - split; [cbn; lia | reflexivity].
  - split; [cbn; lia | reflexivity].
  - rewrite show_frame_final. split; [apply show_frame_scheduled | congruence].
  - rewrite show_frame_final. split; [apply show_frame_scheduled | cbn; congruence].
Qed.

Lemma resume_scan_timer (o : open_answer) (cam : camera_answer) (s : App) :
  running s = false ->
  (scheduled (trace (resume_scan o cam s)) <= 1)%nat
  /\ (running (final (resume_scan o cam s)) = false ->
      scheduled (trace (resume_scan o cam s)) = 0%nat).
Proof.
  intros Hrun. destruct (opens o) eqn:Hopen.
  - rewrite resume_scan_granted by assumption. cbn [final trace].
    rewrite scheduled_app, scheduled_open_calls. cbn [Nat.add].
    now apply update_frame_timer.
  - rewrite resume_scan_refused by assumption. cbn [final trace].
    rewrite scheduled_app, scheduled_open_calls. cbn. split; [lia | reflexivity].
Qed.

Lemma step_orderly (w : session) (a : action) : orderly w -> orderly (step w a).
Proof.
  intros Hw. pose proof Hw as [Htidy [Hone [Hpaused Hdead]]].
  unfold step. destruct (alive w) eqn:Halive; cbn [negb]; [| exact Hw].
  destruct a as [cam | o cam |].
  - destruct (timers w) as [| pending] eqn:Htimers; [exact Hw |].
    assert (Hrun : running (app w) = true).
    { destruct (running (app w)); [reflexivity |]. specialize (Hpaused eq_refl). lia. }
    destruct (update_frame_timer cam (app w) Hrun) as [Hle Hzero].
    unfold orderly, absorb; cbn [app timers alive]. rewrite Halive.
    split; [apply update_frame_tidy; exact Htidy |].
    split; [lia |].
    split; [| discriminate].
    intros Hp. specialize (Hzero Hp). lia.
  - destruct (running (app w)) eqn:Hrun.
    + rewrite resume_scan_running by exact Hrun.
      unfold orderly, absorb; cbn [app timers alive final trace scheduled filter length].
      rewrite Halive, Nat.add_0_r.
      split; [exact Htidy |]. split; [exact Hone |].
      split; [intros Hp; congruence | discriminate].
    + destruct (resume_scan_timer o cam (app w) Hrun) as [Hle Hzero].
      specialize (Hpaused eq_refl).
      unfold orderly, absorb; cbn [app timers alive]. rewrite Halive, Hpaused.
      split; [apply resume_scan_tidy; exact Htidy |].
      split; [exact Hle |]. split; [exact Hzero | discriminate].
  - unfold orderly; cbn [app timers alive].
    split; [apply on_close_tidy; exact Htidy |].
    split; [lia |]. split; [reflexivity |]. intros _. split; [reflexivity |].
    rewrite on_close_run. cbn [final].
    destruct (isOpened (video (app w))) eqn:Hopen; [reflexivity | exact Hopen].
Qed.

Lemma run_orderly (l : list action) (w : session) : orderly w -> orderly (run w l).
Proof.
  revert w. induction l as [| a l IH]; intros w Hw; [exact Hw |].
  cbn [run fold_left]. apply IH. now apply step_orderly.
Qed.

Lemma fresh_tidy (det : image -> detection) (index size : Z) (ds dcs : PyFloat.float64)
    (v : VideoCapture) :
  tidy (set_video v (fresh det index size ds dcs)).
Proof.
  unfold tidy, memo_clear; cbn. split_all; try reflexivity; try discriminate.
  - constructor.
  - lia.
Qed.

Lemma QRScannerApp_run (det : image -> detection) (index size : Z)
    (ds dcs : PyFloat.float64) (o : open_answer) (cam : camera_answer) :
  opens o = true ->
  QRScannerApp det index size ds dcs o cam
  = let r := update_frame cam (set_video (mkVideo true) (fresh det index size ds dcs)) in
    mkRes (outcome r) (final r) (open_calls index o ++ trace r).
Proof.
  intros Hopen. unfold QRScannerApp, init, bind. rewrite open_camera_run, Hopen.
  cbn [negb camera_index fresh].
  destruct (update_frame cam _) as [out s' tr]. cbn. now rewrite app_nil_r.
Qed.

Lemma boot_orderly (det : image -> detection) (index size : Z)
    (ds dcs : PyFloat.float64) (o : open_answer) (cam : camera_answer) (w : session) :
  boot (QRScannerApp det index size ds dcs o cam) = Some w -> orderly w.
Proof.
  destruct (opens o) eqn:Hopen.
  - rewrite QRScannerApp_run by exact Hopen. cbv zeta.
    set (s0 := set_video (mkVideo true) (fresh det index size ds dcs)).
    unfold boot. cbn [outcome final trace].
    destruct (outcome (update_frame cam s0)); [discriminate |]. intros [= <-].
    destruct (update_frame_timer cam s0 eq_refl) as [Hle Hzero].
    unfold orderly; cbn [app timers alive].
    rewrite scheduled_app, scheduled_open_calls. cbn [Nat.add].
    split; [apply update_frame_tidy, fresh_tidy |].
    split; [exact Hle |]. split; [exact Hzero | discriminate].
  - unfold QRScannerApp, init, bind, raise, boot.
    rewrite open_camera_run, Hopen. discriminate.
Qed.

(** The callbacks never touch the settings. *)
Lemma update_frame_settings (cam : camera_answer) (s : App) :
  same_settings s (final (update_frame cam s)).
Proof.
  destruct (update_frame_final_cases cam s) as [-> | [[_ [m ->]] | [newest [_ ->]]]];
    unfold same_settings; cbn; split_all; reflexivity.
Qed.

Lemma same_settings_trans (a b c : App) :
  same_settings a b -> same_settings b c -> same_settings a c.
Proof.
  unfold same_settings. intros [? [? [? [? ?]]]] [? [? [? [? ?]]]].
  split_all; congruence.
Qed.

Lemma resume_scan_settings (o : open_answer) (cam : camera_answer) (s : App) :
  same_settings s (final (resume_scan o cam s)).
Proof.
  destruct (running s) eqn:Hrun.
  - rewrite resume_scan_running by exact Hrun. unfold same_settings; split_all; reflexivity.
  - destruct (opens o) eqn:Hopen.
    + rewrite resume_scan_granted by assumption. cbn [final].
      apply (same_settings_trans s (resumed s)); [| apply update_frame_settings].
      unfold same_settings; cbn; split_all; reflexivity.
    + rewrite resume_scan_refused by assumption.
      unfold same_settings; cbn; split_all; reflexivity.
Qed.

Lemma step_settings (w : session) (a : action) : same_settings (app w) (app (step w a)).
Proof.
  assert (Hrefl : forall s, same_settings s s)
    by (intros s; unfold same_settings; split_all; reflexivity).
  unfold step. destruct (alive w); cbn [negb]; [| apply Hrefl].
  destruct a as [cam | o cam |].
  - destruct (timers w); [apply Hrefl |]. apply update_frame_settings.
  - apply resume_scan_settings.
  - rewrite on_close_run. cbn [app final].
    destruct (isOpened (video (app w))); [| apply Hrefl].
    unfold same_settings; cbn; split_all; reflexivity.
Qed.

Lemma run_settings (l : list action) (w : session) : same_settings (app w) (app (run w l)).
Proof.
  revert w. induction l as [| a l IH]; intros w.
  - unfold same_settings; split_all; reflexivity.
  - cbn [run fold_left].
    apply (same_settings_trans (app w) (app (step w a))); [apply step_settings | apply IH].
Qed.

Lemma boot_settings (det : image -> detection) (index size : Z)
    (ds dcs : PyFloat.float64) (o : open_answer) (cam : camera_answer) (w : session) :
  boot (QRScannerApp det index size ds dcs o cam) = Some w ->
  same_settings (fresh det index size ds dcs) (app w).
Proof.
  destruct (opens o) eqn:Hopen.
  - rewrite QRScannerApp_run by exact Hopen. cbv zeta. unfold boot. cbn [outcome final trace].
    destruct (outcome _); [discriminate |]. intros [= <-]. cbn [app].
    apply (same_settings_trans _ (set_video (mkVideo true) (fresh det index size ds dcs)));
      [| apply update_frame_settings].
    unfold same_settings; cbn; split_all; reflexivity.
  - unfold QRScannerApp, init, bind, raise, boot.
    rewrite open_camera_run, Hopen. discriminate.
Qed.

Lemma update_frame_holds (cam : camera_answer) (s : App) :
  isOpened (video s) = running s ->
  isOpened (video (final (update_frame cam s))) = running (final (update_frame cam s)).
Proof.
  intros Hheld.
  destruct (update_frame_final_cases cam s) as [-> | [[_ [m ->]] | [newest [_ ->]]]];
    [exact Hheld | exact Hheld | reflexivity].
Qed.

Lemma resume_scan_holds (o : open_answer) (cam : camera_answer) (s : App) :
  isOpened (video s) = running s ->
  isOpened (video (final (resume_scan o cam s))) = running (final (resume_scan o cam s)).
Proof.
  intros Hheld. destruct (running s) eqn:Hrun.
  - rewrite resume_scan_running by exact Hrun. cbn [final]. now rewrite Hrun.
  - destruct (opens o) eqn:Hopen.
    + rewrite resume_scan_granted by assumption. cbn [final].
      now apply update_frame_holds.
    + rewrite resume_scan_refused by assumption. cbn. now rewrite Hrun.
Qed.

Lemma step_holding (w : session) (a : action) : holding w -> holding (step w a).
Proof.
  intros Hw. unfold step. destruct (alive w) eqn:Halive; cbn [negb]; [| exact Hw].
  specialize (Hw Halive).
  destruct a as [cam | o cam |].
  - destruct (timers w); [unfold holding; now rewrite Halive |].
    unfold holding, absorb; cbn [app alive]. intros _. now apply update_frame_holds.
  - unfold holding, absorb; cbn [app alive]. intros _. now apply resume_scan_holds.
  - unfold holding; cbn [alive]. discriminate.
Qed.

Lemma run_holding (l : list action) (w : session) : holding w -> holding (run w l).
Proof.
  revert w. induction l as [| a l IH]; intros w Hw; [exact Hw |].
  cbn [run fold_left]. apply IH. now apply step_holding.
Qed.

Lemma boot_holding (det : image -> detection) (index size : Z)
    (ds dcs : PyFloat.float64) (o : open_answer) (cam : camera_answer) (w : session) :
  boot (QRScannerApp det index size ds dcs o cam) = Some w -> holding w.
Proof.
  destruct (opens o) eqn:Hopen.
  - rewrite QRScannerApp_run by exact Hopen. cbv zeta. unfold boot. cbn [outcome final trace].
    destruct (outcome _); [discriminate |]. intros [= <-].
    unfold holding; cbn [app alive]. intros _. now apply update_frame_holds.
  - unfold QRScannerApp, init, bind, raise, boot.
    rewrite open_camera_run, Hopen. discriminate.
Qed.

Lemma boot_booted0 :
  boot (QRScannerApp sample_detector 0 20 half four camera_ok (Some (Captured 0)))
  = Some booted0.
Proof. vm_compute. reflexivity. Qed.

(** ** Sessions of the running program *)

(** X1: at any moment of any session at most one [update_frame] callback
    is registered; none is registered while the session is paused or after
    the window was closed, so that timers cannot wake a paused session. *)
Theorem single_callback_chain (det : image -> detection) (index size : Z)
    (ds dcs : PyFloat.float64) (o : open_answer) (cam : camera_answer)
    (w0 : session) (l : list action) :
  boot (QRScannerApp det index size ds dcs o cam) = Some w0 ->
  (timers (run w0 l) <= 1)%nat
  /\ (running (app (run w0 l)) = false -> timers (run w0 l) = 0%nat)
  /\ (alive (run w0 l) = false -> timers (run w0 l) = 0%nat)
  /\ (running (app (run w0 l)) = false ->
      forall cams, run (run w0 l) (map Timer cams) = run w0 l).
Proof.
  intros Hboot.
  destruct (run_orderly l w0 (boot_orderly _ _ _ _ _ _ _ _ Hboot))
    as [_ [Hone [Hpaused Hdead]]].
  split; [exact Hone |]. split; [exact Hpaused |].
  split; [intros Hd; now destruct (Hdead Hd) |].
  intros Hp cams. apply run_timers_idle. now apply Hpaused.
Qed.

Lemma single_callback_chain_witness :
  (timers (run booted0 afternoon) <= 1)%nat
  /\ timers (run booted0 [Timer (Some (Captured 1))]) = 0%nat.
Proof.
  split.
  - now destruct (single_callback_chain _ _ _ _ _ _ _ booted0 afternoon boot_booted0).
  - destruct (single_callback_chain _ _ _ _ _ _ _ booted0 [Timer (Some (Captured 1))]
                boot_booted0) as [_ [Hpaused _]].
    apply Hpaused. reflexivity.
Defined.

Lemma captures_open_calls (index : Z) (o : open_answer) :
  (0 < captures (open_calls index o))%nat.
Proof. unfold open_calls. destruct (with_dshow o); cbn; lia. Qed.

Lemma update_frame_captures (cam : camera_answer) (s : App) :
  captures (trace (update_frame cam s)) = 0%nat.
Proof.
  rewrite update_frame_classified.
  destruct (classify cam s); try reflexivity; rewrite show_frame_run;
    destruct (display_frame _ _); try reflexivity;
    destruct (overlay _ _ _); try reflexivity; cbn [trace];
    match goal with |- context [running ?x] => destruct (running x) end; reflexivity.
Qed.

(** X2: while the window is there the camera handle is open exactly when
    the session scans; after the window was closed it is released.  A tick
    never constructs a capture handle, and the resume action constructs
    one only when the handle it replaces is not open. *)
Theorem camera_held_exactly_while_scanning (det : image -> detection) (index size : Z)
    (ds dcs : PyFloat.float64) (o : open_answer) (cam : camera_answer)
    (w0 : session) (l : list action) :
  boot (QRScannerApp det index size ds dcs o cam) = Some w0 ->
  (alive (run w0 l) = true ->
   isOpened (video (app (run w0 l))) = running (app (run w0 l)))
  /\ (alive (run w0 l) = false -> isOpened (video (app (run w0 l))) = false)
  /\ (forall cam', captures (trace (update_frame cam' (app (run w0 l)))) = 0%nat)
  /\ (forall o' cam',
        alive (run w0 l) = true ->
        (0 < captures (trace (resume_scan o' cam' (app (run w0 l)))))%nat ->
        isOpened (video (app (run w0 l))) = false).
Proof.
  intros Hboot.
  pose proof (run_holding l w0 (boot_holding _ _ _ _ _ _ _ _ Hboot)) as Hheld.
  destruct (run_orderly l w0 (boot_orderly _ _ _ _ _ _ _ _ Hboot))
    as [_ [_ [_ Hdead]]].
  split; [exact Hheld |].
  split; [intros Hd; now destruct (Hdead Hd) |].
  split; [intros cam'; apply update_frame_captures |].
  intros o' cam' Halive Hcap. rewrite (Hheld Halive).
  destruct (running (app (run w0 l))) eqn:Hrun; [| reflexivity].
  rewrite resume_scan_running in Hcap by exact Hrun. cbn in Hcap. lia.
Qed.

Lemma camera_held_exactly_while_scanning_witness :
  isOpened (video (app (run booted0 [Timer (Some (Captured 1))]))) = false
  /\ isOpened (video (app (run booted0 afternoon))) = false.
Proof.
  split.
  - destruct (camera_held_exactly_while_scanning _ _ _ _ _ _ _ booted0
                [Timer (Some (Captured 1))] boot_booted0) as [Hheld _].
    now rewrite Hheld.
  - destruct (camera_held_exactly_while_scanning _ _ _ _ _ _ _ booted0 afternoon
                boot_booted0) as [_ [Hdead _]].
    now apply Hdead.
Defined.

(** X3: in a session built with a positive [history_size], the history
    never holds more entries than that, whatever the camera shows and the
    user does. *)
Theorem history_within_maximum (det : image -> detection) (index size : Z)
    (ds dcs : PyFloat.float64) (o : open_answer) (cam : camera_answer)
    (w0 : session) (l : list action) :
  0 < size ->
  boot (QRScannerApp det index size ds dcs o cam) = Some w0 ->
  history_size (app (run w0 l)) = size
  /\ Z.of_nat (length (decoded_history (app (run w0 l)))) <= size.
Proof.
  intros Hsize Hboot.
  assert (Hsame : history_size (app (run w0 l)) = size).
  { destruct (run_settings l w0) as [_ [_ [_ [Hl _]]]].
    destruct (boot_settings _ _ _ _ _ _ _ _ Hboot) as [_ [_ [_ [Hb _]]]].
    now rewrite Hl, Hb. }
  split; [exact Hsame |].
  destruct (run_orderly l w0 (boot_orderly _ _ _ _ _ _ _ _ Hboot))
    as [[_ [_ [_ [_ Hfit]]]] _].
  rewrite Hsame in Hfit. now apply Hfit.
Qed.

Lemma history_within_maximum_witness :
  Z.of_nat (length (decoded_history (app (run booted0 afternoon)))) <= 20.
Proof.
  now destruct (history_within_maximum sample_detector 0 20 half four camera_ok
                  (Some (Captured 0)) booted0 afternoon eq_refl boot_booted0).
Defined.

(** X4: the text box always shows the history, one entry per line, and
    the history never contains an empty entry. *)
Theorem text_box_shows_history (det : image -> detection) (index size : Z)
    (ds dcs : PyFloat.float64) (o : open_answer) (cam : camera_answer)
    (w0 : session) (l : list action) :
  boot (QRScannerApp det index size ds dcs o cam) = Some w0 ->
  decoded_box (app (run w0 l)) = Py.join Py.newline (decoded_history (app (run w0 l)))
  /\ Forall (fun t => t <> "") (decoded_history (app (run w0 l))).
Proof.
  intros Hboot.
  destruct (run_orderly l w0 (boot_orderly _ _ _ _ _ _ _ _ Hboot))
    as [[_ [_ [Hne [Hbox _]]]] _].
  split; assumption.
Qed.

Lemma text_box_shows_history_witness :
  decoded_box (app (run booted0 afternoon))
  = String.concat Py.newline ["A"; "B"].
Proof.
  destruct (text_box_shows_history _ _ _ _ _ _ _ booted0 afternoon boot_booted0)
    as [Hbox _].
  rewrite Hbox. vm_compute. reflexivity.
Defined.

Lemma texts_in_decoded (s : App) (frame : image) :
  texts_in s frame <> [] ->
  exists detect, detect_frame s frame = Some detect
                 /\ texts_in s frame = fst (decode (detector s detect)).
Proof.
  unfold texts_in. destruct (detect_frame s frame) as [detect |]; [| congruence].
  intros _. now exists detect.
Qed.

(** X5: in a session of the running program the memo is empty whenever
    the session scans, so the branch for a repeated text is never taken:
    every tick that decodes a text is a new detection and pauses. *)
Theorem decoded_text_always_new (det : image -> detection) (index size : Z)
    (ds dcs : PyFloat.float64) (o : open_answer) (cam : camera_answer)
    (w0 : session) (l : list action) :
  boot (QRScannerApp det index size ds dcs o cam) = Some w0 ->
  (running (app (run w0 l)) = true -> last_result (app (run w0 l)) = None)
  /\ (forall cam' frame points, classify cam' (app (run w0 l)) <> Repeated frame points)
  /\ (forall frame,
        running (app (run w0 l)) = true ->
        isOpened (video (app (run w0 l))) = true ->
        texts_in (app (run w0 l)) frame <> [] ->
        running (final (update_frame (Some frame) (app (run w0 l)))) = false
        /\ last_result (final (update_frame (Some frame) (app (run w0 l))))
           = Some (newest_in (app (run w0 l)) frame)).
Proof.
  intros Hboot.
  destruct (run_orderly l w0 (boot_orderly _ _ _ _ _ _ _ _ Hboot))
    as [[_ [Hmemo _]] _].
  split; [exact Hmemo |]. split.
  - intros cam' frame points Hkind.
    destruct (classify_repeated _ _ _ _ Hkind) as [Hrun [t Ht]].
    rewrite (Hmemo Hrun) in Ht. discriminate.
  - intros frame Hrun Hopen Hne.
    destruct (texts_in_decoded _ _ Hne) as [detect [Hdetect Htexts]].
    unfold newest_in. rewrite Htexts in Hne |- *.
    rewrite (update_frame_detected frame detect);
      [| exact Hrun | exact Hopen | exact Hdetect | exact Hne
       | rewrite (Hmemo Hrun); apply ne_opt_None].
    split; reflexivity.
Qed.

Lemma decoded_text_always_new_witness :
  last_result (app (run booted0 [Timer (Some (Captured 0)); Timer None])) = None.
Proof.
  destruct (decoded_text_always_new _ _ _ _ _ _ _ booted0
              [Timer (Some (Captured 0)); Timer None] boot_booted0) as [Hmemo _].
  apply Hmemo. reflexivity.
Defined.

(** ** Closing the window *)

(** X6: closing the window of a running program releases the camera
    exactly once when the session scans and not at all when it is paused
    (the detection or the refused resume left no open handle), destroys
    the window, leaves the handle closed and nothing else changed; after
    that no timer, button or second close does anything. *)
Theorem closing_releases_exactly_once (det : image -> detection) (index size : Z)
    (ds dcs : PyFloat.float64) (o : open_answer) (cam : camera_answer)
    (w0 : session) (l : list action) :
  boot (QRScannerApp det index size ds dcs o cam) = Some w0 ->
  alive (run w0 l) = true ->
  let w := run w0 l in
  let r := on_close (app w) in
  outcome r = inr tt
  /\ releases (trace r) = (if running (app w) then 1 else 0)%nat
  /\ trace r = (if running (app w) then [Release; Destroy] else [Destroy])
  /\ isOpened (video (final r)) = false
  /\ final r = (if running (app w) then set_video (mkVideo false) (app w) else app w)
  /\ releases (trace (on_close (final r))) = 0%nat
  /\ log (step w WindowClose) = log w ++ trace r
  /\ (forall l', run (step w WindowClose) l' = step w WindowClose).
Proof.
  intros Hboot Halive w r.
  pose proof (run_holding l w0 (boot_holding _ _ _ _ _ _ _ _ Hboot) Halive) as Hheld.
  fold w in Hheld, Halive.
  assert (Hr : r = mkRes (inr tt)
                     (if running (app w) then set_video (mkVideo false) (app w) else app w)
                     (if running (app w) then [Release; Destroy] else [Destroy])).
  { subst r. rewrite on_close_run, Hheld. reflexivity. }
  rewrite Hr. cbn [outcome final trace].
  split_all; try reflexivity.
  - destruct (running (app w)); reflexivity.
  - destruct (running (app w)); [reflexivity | exact Hheld].
  - rewrite on_close_run. destruct (running (app w)); cbn; [reflexivity |].
    rewrite Hheld. reflexivity.
  - unfold step. rewrite Halive. cbn [negb log]. fold r. now rewrite Hr.
  - intros l'. assert (Hdead : alive (step w WindowClose) = false)
      by (unfold step; rewrite Halive; reflexivity).
    induction l' as [| a l' IH]; [reflexivity |].
    cbn [run fold_left]. unfold step at 2. rewrite Hdead. exact IH.
Qed.

Lemma closing_releases_exactly_once_witness :
  trace (on_close (app (run booted0 [Timer None]))) = [Release; Destroy]
  /\ trace (on_close (app (run booted0 [Timer (Some (Captured 1))]))) = [Destroy].
Proof.
  split.
  - now destruct (closing_releases_exactly_once _ _ _ _ _ _ _ booted0 [Timer None]
                    boot_booted0 eq_refl) as [_ [_ [Htrace _]]].
  - now destruct (closing_releases_exactly_once _ _ _ _ _ _ _ booted0
                    [Timer (Some (Captured 1))] boot_booted0 eq_refl)
      as [_ [_ [Htrace _]]].
Defined.

(** ** Opening the camera *)

(** X7: [open_camera] calls the constructor without the flag only when
    the one with [CAP_DSHOW] raised; a [CAP_DSHOW] handle that is not open
    is not retried.  It returns whether the handle it stored is open, and
    shows the error dialog exactly when it is not; it changes nothing but
    the handle. *)
Theorem open_camera_falls_back_on_exception_only (o : open_answer) (s : App) :
  outcome (open_camera o s) = inr (isOpened (video (final (open_camera o s))))
  /\ final (open_camera o s) = set_video (mkVideo (opens o)) s
  /\ captures (trace (open_camera o s))
     = (match with_dshow o with None => 2 | Some _ => 1 end)%nat
  /\ (In (NewVideoCapture (camera_index s) false) (trace (open_camera o s))
      <-> with_dshow o = None)
  /\ (In (camera_error (camera_index s)) (trace (open_camera o s))
      <-> isOpened (video (final (open_camera o s))) = false)
  /\ (with_dshow o = Some false ->
      outcome (open_camera o s) = inr false
      /\ trace (open_camera o s)
         = [NewVideoCapture (camera_index s) true; camera_error (camera_index s)])
  /\ releases (trace (open_camera o s)) = 0%nat.
Proof.
  rewrite open_camera_run. cbn [outcome final trace].
  unfold opens, open_calls, camera_error.
  destruct (with_dshow o) as [[|] |]; [| | destruct (without_flag o)];
    cbn; split_all; try reflexivity; try tauto;
    try (split; [intros H; repeat destruct H as [H | H]; try discriminate; try tauto
                | intros H; try discriminate; tauto]);
    try (intros H; discriminate).
Qed.

(** A resume that could not open the camera leaves nothing behind that a
    later resume would see. *)
Lemma resumed_after_refusal (s : App) :
  resumed (set_video (mkVideo false) s) = resumed s.
Proof. reflexivity. Qed.

(** X8: a resume action that fails to open the camera has no lasting
    effect: whatever is tried next on the paused session goes exactly as
    if the failed attempt had not happened. *)
Theorem refused_resume_leaves_no_mark (bad o : open_answer) (cam cam' : camera_answer)
    (s : App) :
  running s = false ->
  opens bad = false ->
  resume_scan o cam (final (resume_scan bad cam' s)) = resume_scan o cam s.
Proof.
  intros Hrun Hbad. rewrite (resume_scan_refused bad cam' s Hrun Hbad). cbn [final].
  destruct (opens o) eqn:Hopen.
  - rewrite !resume_scan_granted by assumption. reflexivity.
  - rewrite !resume_scan_refused by assumption. reflexivity.
Qed.

Lemma refused_resume_leaves_no_mark_witness :
  resume_scan camera_ok (Some (Captured 3))
    (final (resume_scan camera_missing (Some (Captured 3)) paused0))
  = resume_scan camera_ok (Some (Captured 3)) paused0.
Proof.
  exact (refused_resume_leaves_no_mark camera_missing camera_ok
           (Some (Captured 3)) (Some (Captured 3)) paused0 eq_refl eq_refl).
Defined.

(** ** Frames with several codes *)

Lemma filter_all_empty (post : list string) :
  Forall (fun u => u = "") post -> filter Py.truthy post = [].
Proof.
  induction 1 as [| u post Hu _ IH]; [reflexivity |].
  subst u. cbn [filter]. unfold Py.truthy at 1. exact IH.
Qed.

Lemma last_nonempty_decoded (d : detection) (pre post : list string) (t : string) :
  retval d = true ->
  decoded_info d = pre ++ t :: post ->
  t <> "" ->
  Forall (fun u => u = "") post ->
  fst (decode d) = filter Py.truthy pre ++ [t].
Proof.
  intros Hret Hinfo Ht Hpost. unfold decode. rewrite Hret, Hinfo. cbn [fst].
  rewrite filter_app. cbn [filter].
  apply truthy_nonempty in Ht. rewrite Ht, (filter_all_empty post Hpost). reflexivity.
Qed.

(** X9: when the detector decodes several codes in one frame, the tick
    reports the last non-empty text of the detector's list and only that
    one: it becomes the memo, it is the text of the dialog, and it is the
    single entry the history gains; the texts decoded before it in the
    same frame are not recorded. *)
Theorem last_text_of_frame_is_reported (frame detect : image) (s : App)
    (pre post : list string) (t : string) :
  running s = true ->
  isOpened (video s) = true ->
  detect_frame s frame = Some detect ->
  retval (detector s detect) = true ->
  decoded_info (detector s detect) = pre ++ t :: post ->
  t <> "" ->
  Forall (fun u => u = "") post ->
  last_result s <> Some t ->
  let r := update_frame (Some frame) s in
  trace r = [Release; ShowInfo "QR detected" t]
  /\ last_result (final r) = Some t
  /\ decoded_history (final r) = evict (history_size s) (decoded_history s ++ [t])
  /\ (0 <= history_size s ->
      exists k, decoded_history (final r) = skipn k (decoded_history s) ++ [t])
  /\ (forall u, In u pre -> ~ In u (decoded_history s) -> u <> t ->
      ~ In u (decoded_history (final r))).
Proof.
  intros Hrun Hopen Hdetect Hret Hinfo Ht Hpost Hnew r.
  pose proof (last_nonempty_decoded _ pre post t Hret Hinfo Ht Hpost) as Htexts.
  assert (Hlast : last (fst (decode (detector s detect))) "" = t)
    by (rewrite Htexts; apply last_last).
  assert (Hr : r = mkRes (inr tt) (detected t s) [Release; ShowInfo "QR detected" t]).
  { subst r. rewrite <- Hlast. apply (update_frame_detected frame detect); auto.
    - rewrite Htexts. now destruct (filter Py.truthy pre).
    - rewrite Hlast. now apply ne_opt_true. }
  rewrite Hr. cbn [trace final detected last_result decoded_history].
  split_all; try reflexivity.
  - intros Hsize.
    destruct (evict_app_new (history_size s) (decoded_history s) t Hsize) as [k [Hk _]].
    now exists k.
  - intros u _ Hold Hut Hin.
    destruct (evict_suffix (history_size s) (decoded_history s ++ [t])) as [k [_ Hk]].
    rewrite Hk in Hin.
    assert (Hin' : In u (decoded_history s ++ [t])).
    { rewrite <- (firstn_skipn k (decoded_history s ++ [t])). apply in_or_app. now right. }
    apply in_app_or in Hin'. destruct Hin' as [Hin' | [Hin' | []]]; [tauto | congruence].
Qed.

Lemma last_text_of_frame_is_reported_witness :
  decoded_history (final (update_frame (Some (Captured 7)) crowded0)) = ["Y"].
Proof.
  assert (Hpost : Forall (fun u : string => u = "") [""]) by (repeat constructor).
  assert (Ht : "Y" <> "") by discriminate.
  assert (Hnew : last_result crowded0 <> Some "Y") by discriminate.
  destruct (last_text_of_frame_is_reported (Captured 7) (Resize (Captured 7) four four)
              crowded0 ["X"; ""] [""] "Y"
              eq_refl eq_refl eq_refl eq_refl eq_refl Ht Hpost Hnew) as [_ [_ [Hh _]]].
  rewrite Hh. vm_compute. reflexivity.
Defined.

(** ** Scenes without a code *)





(** ** The history over many appends *)

Lemma append_history_history (text : string) (s : App) :
  decoded_history (final (append_history text s))
  = if Py.truthy text
    then evict (history_size s) (decoded_history s ++ [text])
    else decoded_history s.
Proof.
  unfold append_history. destruct (Py.truthy text); reflexivity.
Qed.

Lemma appends_ext (texts : list string) (a b : App) :
  decoded_history a = decoded_history b ->
  history_size a = history_size b ->
  decoded_history (appends texts a) = decoded_history (appends texts b).
Proof.
  revert a b. induction texts as [| t texts IH]; intros a b Hh Hsize; [exact Hh |].
  cbn [appends fold_left].
  fold (appends texts (final (append_history t a))).
  fold (appends texts (final (append_history t b))).
  apply IH.
  - rewrite !append_history_history, Hh, Hsize. reflexivity.
  - now rewrite !append_history_size.
Qed.

Lemma evict_exact_length (n : Z) (h : list string) :
  0 < n -> length (evict n h) = Nat.min (Z.to_nat n) (length h).
Proof.
  intros Hn. rewrite evict_skipn by exact Hn. rewrite length_skipn. lia.
Qed.

Lemma skipn_skipn_app {A : Type} (a b : nat) (l1 l2 : list A) :
  (b <= length l1)%nat ->
  skipn a (skipn b l1 ++ l2) = skipn (a + b) (l1 ++ l2).
Proof.
  intros Hb. rewrite <- skipn_skipn. f_equal.
  rewrite skipn_app. replace (b - length l1)%nat with 0%nat by lia. reflexivity.
Qed.

(** X11: with a positive maximum, a history that is within it, and any
    number of non-empty texts appended one after the other, the history
    is exactly the newest [history_size] entries of the old history
    followed by the texts, in insertion order. *)
Theorem history_keeps_the_newest (texts : list string) (s : App) :
  0 < history_size s ->
  Z.of_nat (length (decoded_history s)) <= history_size s ->
  Forall (fun t => t <> "") texts ->
  decoded_history (appends texts s)
  = skipn (length (decoded_history s) + length texts - Z.to_nat (history_size s))
          (decoded_history s ++ texts)
  /\ length (decoded_history (appends texts s))
     = Nat.min (Z.to_nat (history_size s)) (length (decoded_history s) + length texts).
Proof.
  revert s. induction texts as [| t texts IH]; intros s Hsize Hfit Hall.
  - cbn [appends fold_left length]. rewrite app_nil_r, Nat.add_0_r.
    replace (length (decoded_history s) - Z.to_nat (history_size s))%nat with 0%nat by lia.
    split; [reflexivity | lia].
  - inversion Hall as [| t' ts' Ht Hrest]; subst.
    apply truthy_nonempty in Ht.
    cbn [appends fold_left]. fold (appends texts (final (append_history t s))).
    pose proof (append_history_history t s) as Hh. rewrite Ht in Hh.
    pose proof (append_history_size t s) as Hs.
    pose proof (evict_exact_length (history_size s) (decoded_history s ++ [t]) Hsize) as Hlen.
    rewrite length_app in Hlen. cbn [length] in Hlen.
    destruct (IH (final (append_history t s))) as [IHh IHl].
    + now rewrite Hs.
    + rewrite Hs, Hh, Hlen. lia.
    + exact Hrest.
    + split.
      * rewrite IHh, Hs, Hh, Hlen.
        rewrite evict_skipn by exact Hsize. rewrite length_app. cbn [length].
        rewrite skipn_skipn_app by (rewrite length_app; cbn [length]; lia).
        replace (decoded_history s ++ t :: texts)
          with ((decoded_history s ++ [t]) ++ texts) by (now rewrite <- app_assoc).
        f_equal. lia.
      * rewrite IHl, Hs, Hh, Hlen. cbn [length]. lia.
Qed.

Lemma history_keeps_the_newest_witness :
  decoded_history (appends letters scanning0) = skipn 5 (decoded_history scanning0 ++ letters).
Proof.
  assert (Hall : Forall (fun t : string => t <> "") letters)
    by (vm_compute; repeat (constructor; [discriminate |]); constructor).
  assert (Hfit : Z.of_nat (length (decoded_history scanning0)) <= history_size scanning0)
    by (vm_compute; discriminate).
  destruct (history_keeps_the_newest letters scanning0 eq_refl Hfit Hall) as [Hh _].
  exact Hh.
Defined.

(** X12: with a negative [history_size] the slice after each append
    drops the entry just added: a history that starts empty stays empty,
    whatever is appended. *)
Theorem negative_maximum_records_nothing (texts : list string) (s : App) :
  history_size s < 0 ->
  decoded_history s = [] ->
  decoded_history (appends texts s) = [].
Proof.
  revert s. induction texts as [| t texts IH]; intros s Hsize Hempty; [exact Hempty |].
  cbn [appends fold_left]. fold (appends texts (final (append_history t s))).
  apply IH; [now rewrite append_history_size |].
  rewrite append_history_history, Hempty.
  destruct (Py.truthy t); [| reflexivity].
  unfold evict, Py.slice_from. cbn [List.app length].
  destruct (Z.gtb_spec (Z.of_nat 1) (history_size s)) as [_ | Hle]; [| lia].
  destruct (Z.ltb_spec (- history_size s) 0) as [Hlt | _]; [lia |].
  replace (Z.to_nat (Z.min (- history_size s) (Z.of_nat 1))) with 1%nat by lia.
  reflexivity.
Qed.

Lemma negative_maximum_records_nothing_witness :
  decoded_history (appends ["a"; "b"; "c"] negative0) = []
  /\ decoded_history (final (update_frame (Some (Captured 1)) negative0)) = [].
Proof.
  split; [| vm_compute; reflexivity].
  exact (negative_maximum_records_nothing ["a"; "b"; "c"] negative0 eq_refl eq_refl).
Defined.

(** ** Detections and resumes in turn *)

Lemma rescan_detected (o : open_answer) (s : App) (frame : image) :
  running s = false ->
  opens o = true ->
  texts_in s frame <> [] ->
  rescan o s frame = detected (newest_in s frame) (resumed s).
Proof.
  intros Hrun Hopen Hne. unfold rescan, newest_in.
  destruct (texts_in_decoded s frame Hne) as [detect [Hdetect Htexts]].
  rewrite Htexts in Hne |- *.
  rewrite resume_scan_granted by assumption. cbn [final].
  rewrite (update_frame_detected frame detect);
    [reflexivity | reflexivity | reflexivity | exact Hdetect | exact Hne
     | apply ne_opt_None].
Qed.

(** X13: detections and resumes in turn build the history like plain
    appends: after the resume button was pressed in front of each frame
    of a list in which a text is decoded, the history is what appending
    the reported texts one by one gives, repeated texts included; the
    session is paused again and remembers the last text. *)
Theorem rescans_append_in_turn (o : open_answer) (frames : list image) (s : App) :
  running s = false ->
  opens o = true ->
  Forall (fun f => texts_in s f <> []) frames ->
  decoded_history (fold_left (rescan o) frames s)
  = decoded_history (appends (map (newest_in s) frames) s)
  /\ running (fold_left (rescan o) frames s) = false
  /\ (forall f fs, frames = fs ++ [f] ->
      last_result (fold_left (rescan o) frames s) = Some (newest_in s f)
      /\ isOpened (video (fold_left (rescan o) frames s)) = false).
Proof.
  revert s. induction frames as [| f frames IH]; intros s Hrun Hopen Hall.
  - cbn. split_all; try reflexivity; try assumption.
    intros f fs Habs. now destruct fs.
  - inversion Hall as [| f' fs' Hf Hrest]; subst.
    cbn [fold_left map appends].
    fold (appends (map (newest_in s) frames) (final (append_history (newest_in s f) s))).
    pose proof (rescan_detected o s f Hrun Hopen Hf) as Hstep.
    destruct (IH (rescan o s f)) as [IHh [IHr IHl]].
    + now rewrite Hstep.
    + exact Hopen.
    + rewrite Hstep. exact Hrest.
    + split_all.
      * rewrite IHh.
        replace (map (newest_in (rescan o s f)) frames) with (map (newest_in s) frames)
          by (apply map_ext; intros f0; now rewrite Hstep).
        apply appends_ext.
        -- assert (Ht : Py.truthy (newest_in s f) = true)
             by (unfold newest_in;
               destruct (texts_in_decoded s f Hf) as [detect [_ Htexts]];
               rewrite Htexts in Hf |- *; now apply newest_truthy).
           rewrite Hstep, append_history_history, Ht. reflexivity.
        -- now rewrite Hstep, append_history_size.
      * exact IHr.
      * intros f0 fs Hsplit. destruct fs as [| f1 fs].
        -- cbn in Hsplit. injection Hsplit as Hf0 Hnil. subst f0 frames.
           cbn [fold_left]. rewrite Hstep. split; reflexivity.
        -- cbn in Hsplit. injection Hsplit as Hf1 Hfs. subst f1 frames.
           destruct (IHl f0 fs eq_refl) as [Hmemo Hvid].
           cbn [fold_left]. split; [rewrite Hmemo, Hstep; reflexivity | exact Hvid].
Qed.

Lemma rescans_append_in_turn_witness :
  decoded_history
    (fold_left (rescan camera_ok) [Captured 1; Captured 3; Captured 1] paused0)
  = ["A"; "A"; "B"; "A"].
Proof.
  assert (Hall : Forall (fun f => texts_in paused0 f <> [])
                        [Captured 1; Captured 3; Captured 1])
    by (repeat constructor; vm_compute; discriminate).
  destruct (rescans_append_in_turn camera_ok [Captured 1; Captured 3; Captured 1] paused0
              eq_refl eq_refl Hall) as [Hh _].
  rewrite Hh. vm_compute. reflexivity.
Defined.

(** ** Sessions with scales that the resize accepts *)










(** ** The status line *)

Lemma classify_running (cam : camera_answer) (s : App) :
  classify cam s = Idle \/ running s = true.
Proof.
  unfold classify. destruct (running s); [now right | now left].
Qed.

Lemma update_frame_told (cam : camera_answer) (s : App) :
  told s -> told (final (update_frame cam s)).
Proof.
  intros Htold. rewrite update_frame_classified.
  destruct (classify_running cam s) as [-> | Hrun]; [exact Htold |].
  destruct (classify cam s); cbn [final]; rewrite ?show_frame_final;
    try exact Htold; unfold told; cbn; rewrite ?Hrun; auto.
Qed.

Lemma resume_scan_told (o : open_answer) (cam : camera_answer) (s : App) :
  told s -> told (final (resume_scan o cam s)).
Proof.
  intros Htold. destruct (running s) eqn:Hrun.
  - now rewrite resume_scan_running.
  - destruct (opens o) eqn:Hopen.
    + rewrite resume_scan_granted by assumption. cbn [final].
      apply update_frame_told. unfold told; cbn. now left.
    + rewrite resume_scan_refused by assumption. cbn [final].
      unfold told in *; cbn. now rewrite Hrun in *.
Qed.

Lemma step_told (w : session) (a : action) : told (app w) -> told (app (step w a)).
Proof.
  intros Hw. unfold step. destruct (alive w); cbn [negb]; [| exact Hw].
  destruct a as [cam | o cam |].
  - destruct (timers w); [exact Hw |]. now apply update_frame_told.
  - now apply resume_scan_told.
  - rewrite on_close_run. cbn [app final].
    destruct (isOpened (video (app w))); exact Hw.
Qed.

Lemma run_told (l : list action) (w : session) : told (app w) -> told (app (run w l)).
Proof.
  revert w. induction l as [| a l IH]; intros w Hw; [exact Hw |].
  cbn [run fold_left]. apply IH. now apply step_told.
Qed.

(** X15: the status line always tells the state: it reads "QR detected -
    camera stopped" exactly while the session is paused, also after a
    resume that could not open the camera, and "Waiting for QR code..."
    or "Camera read failed" while the session scans. *)
Theorem status_tells_the_state (det : image -> detection) (index size : Z)
    (ds dcs : PyFloat.float64) (o : open_answer) (cam : camera_answer)
    (w0 : session) (l : list action) :
  boot (QRScannerApp det index size ds dcs o cam) = Some w0 ->
  (running (app (run w0 l)) = false <->
   status_var (app (run w0 l)) = "QR detected - camera stopped")
  /\ (running (app (run w0 l)) = true <->
      status_var (app (run w0 l)) = "Waiting for QR code..."
      \/ status_var (app (run w0 l)) = "Camera read failed").
Proof.
  intros Hboot.
  assert (Htold : told (app (run w0 l))).
  { apply run_told. destruct (opens o) eqn:Hopen.
    - rewrite QRScannerApp_run in Hboot by exact Hopen. cbv zeta in Hboot.
      unfold boot in Hboot. cbn [outcome final trace] in Hboot.
      destruct (outcome _); [discriminate |]. injection Hboot as <-. cbn [app].
      apply update_frame_told. unfold told; cbn. now left.
    - unfold QRScannerApp, init, bind, raise, boot in Hboot.
      rewrite open_camera_run, Hopen in Hboot. discriminate. }
  unfold told in Htold. destruct (running (app (run w0 l))).
  - split; split; try discriminate; try reflexivity; try (intros _; exact Htold).
    intros Habs. destruct Htold as [H | H]; rewrite H in Habs; discriminate.
  - split; split; try discriminate; try reflexivity; try (intros _; exact Htold).
    intros [H | H]; rewrite H in Htold; discriminate.
Qed.

Lemma status_tells_the_state_witness :
  status_var (app (run booted0 [Timer (Some (Captured 1));
                                ResumeButton camera_missing None]))
  = "QR detected - camera stopped".
Proof.
  destruct (status_tells_the_state _ _ _ _ _ _ _ booted0
              [Timer (Some (Captured 1)); ResumeButton camera_missing None]
              boot_booted0) as [[Hpaused _] _].
  apply Hpaused. reflexivity.
Defined.

(** ** The division of line 98 *)

Lemma classify_shown_nonzero (cam : camera_answer) (s : App) (frame : image)
    (points : option (list bbox)) :
  classify cam s = Repeated frame points \/ classify cam s = Waiting frame points ->
  PyFloat.is_zero (decode_scale s) = false.
Proof.
  unfold classify. cbv zeta. destruct (running s); cbn [negb];
    [| intros [H | H]; discriminate].
  destruct (isOpened (video s)); [destruct cam as [f |] |];
    try (intros [H | H]; discriminate).
  destruct (detect_frame s f) as [detect |] eqn:Hdetect;
    [| intros [H | H]; discriminate].
  intros _. now apply (detect_frame_nonzero s f detect).
Qed.

(** X16: a tick never ends in [ZeroDivisionError]: with a decode-scale
    of zero the resize for the detector raises [cv2.error] before line 98
    divides by it, and no other scale makes the division fail. *)
Theorem tick_never_divides_by_zero (cam : camera_answer) (s : App) :
  outcome (update_frame cam s) <> inl ZeroDivisionError
  /\ (PyFloat.is_zero (decode_scale s) = true ->
      forall frame, running s = true -> isOpened (video s) = true ->
      update_frame (Some frame) s = mkRes (inl Cv2Error) s []).
Proof.
  split.
  - rewrite update_frame_classified.
    destruct (classify cam s) as [| | | newest | frame points | frame points] eqn:Hkind;
      try (cbn; discriminate).
    + pose proof (classify_shown_nonzero cam s frame points (or_introl Hkind)) as Hnz.
      rewrite show_frame_run. destruct (display_frame s frame) as [display |];
        [| cbn; discriminate].
      destruct (overlay_defined s display points (or_introl Hnz)) as [img ->].
      cbn. discriminate.
    + pose proof (classify_shown_nonzero cam s frame points (or_intror Hkind)) as Hnz.
      rewrite show_frame_run.
      destruct (display_frame (set_status "Waiting for QR code..." s) frame)
        as [display |]; [| cbn; discriminate].
      destruct (overlay_defined (set_status "Waiting for QR code..." s) display points
                  (or_introl Hnz)) as [img ->].
      cbn. discriminate.
  - intros Hzero frame Hrun Hopen. apply update_frame_resize_failed; try assumption.
    destruct (detect_frame s frame) as [detect |] eqn:Hdetect; [| reflexivity].
    apply detect_frame_nonzero in Hdetect. congruence.
Qed.

Lemma tick_never_divides_by_zero_witness :
  update_frame (Some (Captured 2))
    (set_video (mkVideo true) (fresh sample_detector 0 20 half (S754_zero false)))
  = mkRes (inl Cv2Error)
      (set_video (mkVideo true) (fresh sample_detector 0 20 half (S754_zero false))) [].
Proof.
  destruct (tick_never_divides_by_zero None
              (set_video (mkVideo true) (fresh sample_detector 0 20 half (S754_zero false))))
    as [_ Hzero].
  exact (Hzero eq_refl (Captured 2) eq_refl eq_refl).
Defined.

(** ** Two ticks that decode the same text *)




